(** * taskr: the task lifecycle views, their serializers and the user report

    Shallow embedding of [tasks/models.py], [tasks/serializers.py],
    [tasks/views.py] and [users/views.py].  The database is an explicit
    store (users, categories, tasks, event logs, the next primary key); a
    view is a computation in a small state monad whose exceptions are the
    ones the views raise ([Http404] from [get_object] /
    [get_object_or_404]; [ValueError], [TypeError] and [OverflowError]
    from a primary-key conversion).  Text is a Python [str], modelled as
    its list of code points.
    Responses that a view *returns* (400, 204, ...) are ordinary values.

    Not modelled: the [created_on] / [modified_on] timestamps (real time)
    and pagination; the list order of [tasks] and [logs] is insertion
    order, which is the [ordering = ['created_on']] of the models. *)

From Stdlib Require Import List ZArith String Ascii Bool Lia.
Import ListNotations.
Open Scope Z_scope.

(* ------------------------------------------------------------------ *)
(** ** tasks/enums.py *)

Module Enums.

(** Modelled from the spec: [tasks/enums.py] (absent from the sources).
    Status and priority are integers in {1,2,3}; the status values agree
    with the literals [status=3] and [status__in=[1, 2]] used for
    done / todo+in-progress in [tasks/views.py]. *)
Definition STATUS_TODO : Z := 1.
Definition STATUS_IN_PROGRESS : Z := 2.
Definition STATUS_DONE : Z := 3.
Definition STATUS_CHOICES : list Z := [STATUS_TODO; STATUS_IN_PROGRESS; STATUS_DONE].

(** Modelled from the spec: [tasks/enums.py], priorities LOW/MEDIUM/HIGH. *)
Definition PRIORITY_LOW : Z := 1.
Definition PRIORITY_MEDIUM : Z := 2.
Definition PRIORITY_HIGH : Z := 3.
Definition PRIORITY_CHOICES : list Z := [PRIORITY_LOW; PRIORITY_MEDIUM; PRIORITY_HIGH].

(** Modelled from the spec: [tasks/enums.py], the event kinds. *)
Inductive event :=
| EVENT_CREATED
| EVENT_EDITED
| EVENT_ASSIGNED
| EVENT_STATUS_CHANGED.

Definition event_eqb (a b : event) : bool :=
  match a, b with
  | EVENT_CREATED, EVENT_CREATED
  | EVENT_EDITED, EVENT_EDITED
  | EVENT_ASSIGNED, EVENT_ASSIGNED
  | EVENT_STATUS_CHANGED, EVENT_STATUS_CHANGED => true
  | _, _ => false
  end.

End Enums.
Import Enums.

(* ------------------------------------------------------------------ *)
(** ** Python helpers: [str.strip], [int(str)], [str(int)] *)

Module Py.

(** A Python [str]: its sequence of Unicode code points. *)
Definition pystr := list Z.

(** A [str] literal written with ASCII characters. *)
Definition of_ascii (s : string) : pystr :=
  map (fun c => Z.of_nat (nat_of_ascii c)) (list_ascii_of_string s).

(** [str.isspace] for one code point (Unicode 14.0, Python 3.11): the
    characters of bidirectional class WS, B or S or of category Zs.
    These are also the characters [str.strip()] removes. *)
Definition is_space (c : Z) : bool :=
  ((9 <=? c) && (c <=? 13)) || ((28 <=? c) && (c <=? 32)) ||
  (c =? 133) || (c =? 160) || (c =? 5760) ||
  ((8192 <=? c) && (c <=? 8202)) || (c =? 8232) || (c =? 8233) ||
  (c =? 8239) || (c =? 8287) || (c =? 12288).

Fixpoint lstrip (l : pystr) : pystr :=
  match l with
  | c :: r => if is_space c then lstrip r else l
  | [] => []
  end.

(** [s.strip()] *)
Definition strip (s : pystr) : pystr := rev (lstrip (rev (lstrip s))).

(** The decimal digits (category Nd, Unicode 14.0) come in runs of ten
    consecutive code points; these are the code points of their zeros. *)
Definition decimal_zeros : list Z :=
  [48; 1632; 1776; 1984; 2406; 2534; 2662; 2790; 2918; 3046; 3174; 3302;
   3430; 3558; 3664; 3792; 3872; 4160; 4240; 6112; 6160; 6470; 6608; 6784;
   6800; 6992; 7088; 7232; 7248; 42528; 43216; 43264; 43472; 43504; 43600;
   44016; 65296; 66720; 68912; 69734; 69872; 69942; 70096; 70384; 70736;
   70864; 71248; 71360; 71472; 71904; 72016; 72784; 73040; 73120; 92768;
   92864; 93008; 120782; 120792; 120802; 120812; 120822; 123200; 123632;
   125264; 130032].

(** [unicodedata.decimal(c)] *)
Definition decimal (c : Z) : option Z :=
  match find (fun z => (z <=? c) && (c <? z + 10)) decimal_zeros with
  | Some z => Some (c - z)
  | None => None
  end.

(** [_PyUnicode_TransformDecimalAndSpaceToASCII], one code point: ASCII is
    kept, other white space becomes a space, other decimal digits become
    their ASCII digit, anything else becomes ['?'] (which no parse accepts). *)
Definition to_ascii (c : Z) : Z :=
  if c <? 127 then c
  else if is_space c then 32
  else match decimal c with
       | Some d => 48 + d
       | None => 63
       end.

(** [Py_ISSPACE]: the C white space \t \n \x0b \x0c \r and space. *)
Definition c_isspace (c : Z) : bool := ((9 <=? c) && (c <=? 13)) || (c =? 32).

Fixpoint skip_c_space (l : list Z) : list Z :=
  match l with
  | c :: r => if c_isspace c then skip_c_space r else l
  | [] => []
  end.

(** The digit loop of [PyLong_FromString] in base 10: decimal digits,
    single underscores between digits; returns the value and the rest. *)
Fixpoint digits (acc : Z) (prev_digit : bool) (l : list Z) : option (Z * list Z) :=
  match l with
  | c :: r =>
      if (48 <=? c) && (c <=? 57) then digits (acc * 10 + (c - 48)) true r
      else if (c =? 95) && prev_digit then digits acc false r
      else if prev_digit then Some (acc, l) else None
  | [] => if prev_digit then Some (acc, []) else None
  end.

(** [int(s)] for a string [s] ([PyLong_FromUnicodeObject] with base 10):
    leading C white space, an optional sign, the digits, trailing C white
    space, and nothing else.  [None] is the [ValueError].  The limit on
    the number of digits of later Python releases is not modelled. *)
Definition int_of_string (s : pystr) : option Z :=
  let a := skip_c_space (map to_ascii s) in
  let '(sign, b) :=
    match a with
    | 45 :: r => (-1, r)
    | 43 :: r => (1, r)
    | _ => (1, a)
    end in
  match digits 0 false b with
  | Some (n, rest) =>
      match skip_c_space rest with
      | [] => Some (sign * n)
      | _ => None
      end
  | None => None
  end.

Fixpoint digits_of_nat (fuel n : nat) (acc : string) : string :=
  match fuel with
  | O => acc
  | S f =>
      let d := String (ascii_of_nat (48 + Nat.modulo n 10)) acc in
      if Nat.ltb n 10 then d else digits_of_nat f (Nat.div n 10) d
  end.

(** [str(z)] for an integer [z]. *)
Definition str_of_Z (z : Z) : string :=
  let n := Z.to_nat (Z.abs z) in
  let s := digits_of_nat (S n) n EmptyString in
  if z <? 0 then String "-" s else s.

End Py.

(* ------------------------------------------------------------------ *)
(** ** tasks/models.py *)

Module Models.

(** The auth user (managed by Django's auth app): primary key, username;
    [str(user)] is the username. *)
Record User := mkUser { user_pk : Z; username : string }.

Record Task := mkTask {
  task_pk : Z;
  name : Py.pystr;        (* CharField(max_length=300) *)
  description : Py.pystr; (* TextField(max_length=2000, blank=True) *)
  category : Z;          (* ForeignKey TaskCategory, PROTECT *)
  priority : Z;          (* PositiveIntegerField(choices=PRIORITY_CHOICES) *)
  status : Z;            (* PositiveIntegerField(choices=STATUS_CHOICES) *)
  reporter : Z;          (* ForeignKey user, PROTECT *)
  assignee : option Z    (* ForeignKey user, null=True *)
}.

Record TaskEventLog := mkLog {
  log_task : Z;          (* ForeignKey Task, CASCADE *)
  log_user : Z;
  log_event : event;
  log_description : string
}.

(** The database. [categories] are the primary keys of the TaskCategory
    rows; [next_pk] is the next primary key the Task table hands out. *)
Record store := mkStore {
  users : list User;
  categories : list Z;
  tasks : list Task;
  logs : list TaskEventLog;
  next_pk : Z
}.

Definition set_tasks (s : store) (ts : list Task) : store :=
  mkStore (users s) (categories s) ts (logs s) (next_pk s).
Definition set_logs (s : store) (ls : list TaskEventLog) : store :=
  mkStore (users s) (categories s) (tasks s) ls (next_pk s).
Definition set_next_pk (s : store) (n : Z) : store :=
  mkStore (users s) (categories s) (tasks s) (logs s) n.

Definition find_task (pk : Z) (s : store) : option Task :=
  find (fun t => task_pk t =? pk) (tasks s).

Definition find_user (pk : Z) (s : store) : option User :=
  find (fun u => user_pk u =? pk) (users s).

Definition with_pk (t : Task) (pk : Z) : Task :=
  mkTask pk (name t) (description t) (category t) (priority t)
    (status t) (reporter t) (assignee t).

End Models.
Import Models.

(* ------------------------------------------------------------------ *)
(** ** The ORM in a state monad with the views' exceptions *)

Module ORM.

(** The exceptions the views can raise: [Http404] is answered 404 by the
    framework, the others are uncaught errors (500). *)
Inductive exn := Http404 | ValueError | TypeError | OverflowError.

Inductive result (A : Type) := Ok (a : A) | Raise (e : exn).
Arguments Ok {A} a.
Arguments Raise {A} e.

Definition M (A : Type) := store -> result A * store.

Definition ret {A} (a : A) : M A := fun s => (Ok a, s).
Definition raise {A} (e : exn) : M A := fun s => (Raise e, s).
Definition bind {A B} (m : M A) (k : A -> M B) : M B :=
  fun s => match m s with
           | (Ok a, s') => k a s'
           | (Raise e, s') => (Raise e, s')
           end.
Definition read {A} (f : store -> A) : M A := fun s => (Ok (f s), s).
Definition modify (f : store -> store) : M unit := fun s => (Ok tt, f s).

(** [try: m except ValueError: h] *)
Definition try_except_ValueError {A} (m : M A) (h : M A) : M A :=
  fun s => match m s with
           | (Raise ValueError, s') => h s'
           | r => r
           end.

Notation "x <- m ;; k" := (bind m (fun x => k))
  (at level 61, m at next level, right associativity).

(** [GenericAPIView.get_object] on [Task.objects.all()] with
    [lookup_field = 'pk']. *)
Definition get_object (pk : Z) : M Task :=
  fun s => match find_task pk s with
           | Some t => (Ok t, s)
           | None => (Raise Http404, s)
           end.

(** [task.save()] on a task that has a primary key: an UPDATE of the rows
    with that key, an INSERT when there is none. *)
Definition save_task (t : Task) : M unit :=
  modify (fun s =>
    if existsb (fun x => task_pk x =? task_pk t) (tasks s)
    then set_tasks s (map (fun x => if task_pk x =? task_pk t then t else x) (tasks s))
    else set_tasks s (tasks s ++ [t])).

(** [task.save()] on a new [Task(...)]: INSERT with the next key. *)
Definition insert_task (t : Task) : M Task :=
  fun s => let t' := with_pk t (next_pk s) in
           (Ok t', set_next_pk (set_tasks s (tasks s ++ [t'])) (next_pk s + 1)).

(** [log.save()] on a new [TaskEventLog(...)]. *)
Definition log_save (l : TaskEventLog) : M unit :=
  modify (fun s => set_logs s (logs s ++ [l])).

(** [task.delete()]: the CASCADE on [TaskEventLog.task] removes the task's
    event logs, then the task row goes. *)
Definition delete_task (t : Task) : M unit :=
  modify (fun s =>
    set_tasks (set_logs s (filter (fun l => negb (log_task l =? task_pk t)) (logs s)))
      (filter (fun x => negb (task_pk x =? task_pk t)) (tasks s))).

(** A JSON float as Python has it: finite (only its truncation towards
    zero, [int(f)], matters here), NaN or an infinity. *)
Inductive pyfloat := FFinite (trunc : Z) | FNaN | FInf.

(** A Python value read from [request.data] (parsed JSON): [None], a
    string, an integer, a boolean, a float, a list or a dict (the items of
    a list or dict do not matter here). *)
Inductive pyval :=
| PyNone
| PyStr (s : Py.pystr)
| PyInt (z : Z)
| PyBool (b : bool)
| PyFloat (f : pyfloat)
| PyList
| PyDict.

(** [request.data.get(key)]: an absent key gives [None]. *)
Definition dict_get (d : option pyval) : pyval :=
  match d with Some v => v | None => PyNone end.

(** [User.objects.get(pk=v)] behind [get_object_or_404(User, pk=v)]:
    the lookup value goes through [AutoField.get_prep_value], i.e. [int(v)]
    (a [ValueError] when a string or NaN is not a number, an
    [OverflowError] for an infinity, a [TypeError] for a list or a dict),
    and [pk=None] is turned into the lookup [pk__isnull=True], which no
    row matches.  Keys beyond the integer range of the database backend
    are not modelled (the lookup finds no row). *)
Definition get_object_or_404_User (v : pyval) : M User :=
  let lookup (key : option Z) : M User :=
    fun s => match find (fun u => match key with
                                  | None => false
                                  | Some z => user_pk u =? z
                                  end) (users s) with
             | Some u => (Ok u, s)
             | None => (Raise Http404, s)
             end in
  match v with
  | PyNone => lookup None
  | PyInt z => lookup (Some z)
  | PyBool b => lookup (Some (if b then 1 else 0))
  | PyFloat (FFinite z) => lookup (Some z)
  | PyFloat FNaN => raise ValueError
  | PyFloat FInf => raise OverflowError
  | PyStr str =>
      match Py.int_of_string str with
      | Some z => lookup (Some z)
      | None => raise ValueError
      end
  | PyList | PyDict => raise TypeError
  end.

End ORM.
Import ORM.

(* ------------------------------------------------------------------ *)
(** ** tasks/serializers.py *)

Module Serializers.

(** The body of a request to the task endpoints: every key a client may
    send, [None] when the key is absent. *)
Record payload := mkPayload {
  p_id : option Z;
  p_name : option Py.pystr;
  p_description : option Py.pystr;
  p_category : option Z;
  p_priority : option Z;
  p_status : option Z;
  p_reporter : option Z;
  p_assignee : option Z
}.

Inductive field_result (A : Type) := Skip | Value (a : A) | Invalid.
Arguments Skip {A}.
Arguments Value {A} a.
Arguments Invalid {A}.

(** [Field.run_validation]: an absent value is skipped under [partial],
    an error when the field is required, skipped otherwise (no serializer
    default); a present value goes through [to_internal_value] and the
    validators ([None] is a validation error). *)
Definition run_field {A B} (required partial : bool) (data : option A)
    (to_internal : A -> option B) : field_result B :=
  match data with
  | None => if (required && negb partial)%bool then Invalid else Skip
  | Some v => match to_internal v with Some b => Value b | None => Invalid end
  end.

(** A surrogate code point (U+D800 to U+DFFF). *)
Definition is_surrogate (c : Z) : bool := (55296 <=? c) && (c <=? 57343).

(** [CharField(allow_blank=.., max_length=..)] with [trim_whitespace], as
    in DRF 3.10 and later: a value that strips to [''] is blank (an error
    unless [allow_blank], then [''] without the validators); otherwise the
    stripped value goes through [MaxLengthValidator] ([len], in code
    points), [ProhibitNullCharactersValidator] and
    [ProhibitSurrogateCharactersValidator]. *)
Definition char_field (allow_blank : bool) (max_length : nat) (v : Py.pystr)
    : option Py.pystr :=
  let v' := Py.strip v in
  match v' with
  | [] => if allow_blank then Some [] else None
  | _ =>
      if (Nat.leb (List.length v') max_length &&
          negb (existsb (Z.eqb 0) v') && negb (existsb is_surrogate v'))%bool
      then Some v' else None
  end.

(** [ChoiceField(choices)] *)
Definition choice_field (choices : list Z) (v : Z) : option Z :=
  if existsb (Z.eqb v) choices then Some v else None.

(** [PrimaryKeyRelatedField(queryset=TaskCategory.objects.all())] *)
Definition category_field (s : store) (v : Z) : option Z :=
  if existsb (Z.eqb v) (categories s) then Some v else None.

Definition is_invalid {A} (r : field_result A) : bool :=
  match r with Invalid => true | _ => false end.
Definition value_of {A} (r : field_result A) : option A :=
  match r with Value a => Some a | _ => None end.

(** [validated_data] of [TaskSerializer]: the writable fields only. *)
Record validated := mkValidated {
  vd_name : option Py.pystr;
  vd_description : option Py.pystr;
  vd_category : option Z;
  vd_priority : option Z
}.

(** [TaskSerializer(data=..., partial=...).is_valid()]: fields [id],
    [status], [reporter], [assignee] are [read_only_fields] and are not
    read from the data. [inl] carries the names of the failing fields. *)
Definition TaskSerializer_is_valid (partial : bool) (data : payload) (s : store)
    : list string + validated :=
  let f_name := run_field true partial (p_name data) (char_field false 300) in
  let f_description := run_field false partial (p_description data) (char_field true 2000) in
  let f_category := run_field true partial (p_category data) (category_field s) in
  let f_priority := run_field false partial (p_priority data) (choice_field PRIORITY_CHOICES) in
  let errors :=
    (if is_invalid f_name then ["name"%string] else []) ++
    (if is_invalid f_description then ["description"%string] else []) ++
    (if is_invalid f_category then ["category"%string] else []) ++
    (if is_invalid f_priority then ["priority"%string] else []) in
  match errors with
  | [] => inr (mkValidated (value_of f_name) (value_of f_description)
                 (value_of f_category) (value_of f_priority))
  | _ => inl errors
  end.

(** [Task] built from [validated_data] as keyword arguments: the model defaults for what is absent
    ([status] = STATUS_TODO, [priority] = PRIORITY_MEDIUM, no assignee;
    no primary key and no reporter yet). *)
Definition Task_new (vd : validated) : Task :=
  mkTask 0
    (match vd_name vd with Some v => v | None => [] end)
    (match vd_description vd with Some v => v | None => [] end)
    (match vd_category vd with Some v => v | None => 0 end)
    (match vd_priority vd with Some v => v | None => PRIORITY_MEDIUM end)
    STATUS_TODO 0 None.

(** [ModelSerializer.update]: [setattr] of every validated field. *)
Definition TaskSerializer_update (t : Task) (vd : validated) : Task :=
  mkTask (task_pk t)
    (match vd_name vd with Some v => v | None => name t end)
    (match vd_description vd with Some v => v | None => description t end)
    (match vd_category vd with Some v => v | None => category t end)
    (match vd_priority vd with Some v => v | None => priority t end)
    (status t) (reporter t) (assignee t).

(** [TaskStatusSerializer(task, data=..., partial=True).is_valid()]:
    the one field [status] is a [ChoiceField] on STATUS_CHOICES. *)
Definition TaskStatusSerializer_is_valid (data_status : option Z)
    : list string + option Z :=
  match run_field false true data_status (choice_field STATUS_CHOICES) with
  | Invalid => inl ["status"%string]
  | r => inr (value_of r)
  end.

(** [TaskStatusSerializer.update] *)
Definition TaskStatusSerializer_update (t : Task) (vd : option Z) : Task :=
  mkTask (task_pk t) (name t) (description t) (category t) (priority t)
    (match vd with Some v => v | None => status t end)
    (reporter t) (assignee t).

End Serializers.
Import Serializers.

(* ------------------------------------------------------------------ *)
(** ** tasks/views.py and users/views.py *)

Module Views.

Record report := mkReport {
  created : nat;
  assigned : nat;
  completed : nat;
  incompleted : nat
}.

Inductive response :=
| HTTP_200_OK (t : Task)                 (* TaskSerializer(task).data *)
| HTTP_201_CREATED (t : Task)
| HTTP_200_DELETED (id : Z)              (* {'id': pk} *)
| HTTP_200_REPORT (r : report)
| HTTP_204_NO_CONTENT
| HTTP_400_BAD_REQUEST (errors : list string)
| HTTP_404_NOT_FOUND
| HTTP_500_SERVER_ERROR.

Definition dq : string := String "034"%char EmptyString.

(** [str(user)] for a user or [None]. *)
Definition str_user (u : option User) : string :=
  match u with Some u => username u | None => "None"%string end.

(** [format(task_serializer.data)] of a [TaskStatusSerializer]. *)
Definition str_status_data (st : Z) : string :=
  ("{'status': " ++ Py.str_of_Z st ++ "}")%string.

Definition opt_Z_eqb (a b : option Z) : bool :=
  match a, b with
  | Some x, Some y => x =? y
  | None, None => true
  | _, _ => false
  end.

(** [TaskListCreate.post] *)
Definition TaskListCreate_post (request_user : Z) (data : payload) : M response :=
  s <- read (fun s => s);;
  match TaskSerializer_is_valid false data s with
  | inr vd =>
      let t := Task_new vd in
      task <- insert_task (mkTask (task_pk t) (name t) (description t) (category t)
                            (priority t) (status t) request_user (assignee t));;
      _ <- log_save (mkLog (task_pk task) request_user EVENT_CREATED "Task created.");;
      ret (HTTP_201_CREATED task)
  | inl errors => ret (HTTP_400_BAD_REQUEST errors)
  end.

(** [TaskDetail.put] *)
Definition TaskDetail_put (request_user pk : Z) (data : payload) : M response :=
  task <- get_object pk;;
  s <- read (fun s => s);;
  match TaskSerializer_is_valid true data s with
  | inr vd =>
      let task' := TaskSerializer_update task vd in
      _ <- save_task task';;
      _ <- log_save (mkLog (task_pk task') request_user EVENT_EDITED "Task edited.");;
      ret (HTTP_200_OK task')
  | inl errors => ret (HTTP_400_BAD_REQUEST errors)
  end.

(** [TaskDetail.delete] *)
Definition TaskDetail_delete (request_user pk : Z) : M response :=
  task <- get_object pk;;
  _ <- delete_task task;;
  ret (HTTP_200_DELETED pk).

(** The target-user resolution of [TaskAssign.post]:
    [try: user = get_object_or_404(User, pk=user) except ValueError: user = None] *)
Definition resolve_user (data_user : option pyval) : M (option User) :=
  let user := dict_get data_user in
  try_except_ValueError
    (u <- get_object_or_404_User user;; ret (Some u))
    (ret None).

(** [TaskAssign.post] *)
Definition TaskAssign_post (request_user pk : Z) (data_user : option pyval) : M response :=
  task <- get_object pk;;
  user <- resolve_user data_user;;
  if opt_Z_eqb (assignee task) (option_map user_pk user) then ret HTTP_204_NO_CONTENT
  else
    let task' := mkTask (task_pk task) (name task) (description task) (category task)
                   (priority task) (status task) (reporter task) (option_map user_pk user) in
    _ <- save_task task';;
    _ <- log_save (mkLog (task_pk task') request_user EVENT_ASSIGNED
                    ("Task assigned to " ++ str_user user ++ ".")%string);;
    ret (HTTP_200_OK task').

(** [validated_data.get('status') == task.status]: [None] equals no integer. *)
Definition py_eq_status (v : option Z) (st : Z) : bool :=
  match v with Some x => x =? st | None => false end.

(** [TaskChangeStatus.post] *)
Definition TaskChangeStatus_post (request_user pk : Z) (data_status : option Z) : M response :=
  task <- get_object pk;;
  match TaskStatusSerializer_is_valid data_status with
  | inr vd =>
      if py_eq_status vd (status task) then ret HTTP_204_NO_CONTENT
      else
        let task' := TaskStatusSerializer_update task vd in
        _ <- save_task task';;
        _ <- log_save (mkLog (task_pk task') request_user EVENT_STATUS_CHANGED
                        ("Task status changed to " ++ dq ++ str_status_data (status task')
                           ++ dq ++ ".")%string);;
        ret (HTTP_200_OK task')
  | inl errors => ret (HTTP_400_BAD_REQUEST errors)
  end.

(** [users/views.py: UserReports.get] (the route [reports/]) *)
Definition UserReports_get (request_user : Z) : M response :=
  all_tasks <- read tasks;;
  let created_count := List.length (filter (fun t => reporter t =? request_user) all_tasks) in
  let assigned_tasks := filter (fun t => opt_Z_eqb (assignee t) (Some request_user)) all_tasks in
  let assigned_count := List.length assigned_tasks in
  let completed_count :=
    List.length (filter (fun t => status t =? STATUS_DONE) assigned_tasks) in
  let incompleted_count :=
    List.length (filter (fun t => existsb (Z.eqb (status t)) [STATUS_TODO; STATUS_IN_PROGRESS])
              assigned_tasks) in
  ret (HTTP_200_REPORT (mkReport created_count assigned_count completed_count incompleted_count)).

(** The routes of [tasks/urls.py] and [users/urls.py] that write or report;
    [request_user] is the authenticated user. *)
Inductive request :=
| CreateTask (request_user : Z) (data : payload)
| UpdateTask (request_user pk : Z) (data : payload)
| DeleteTask (request_user pk : Z)
| AssignTask (request_user pk : Z) (data_user : option pyval)
| ChangeStatus (request_user pk : Z) (data_status : option Z)
| Report (request_user : Z).

Definition dispatch (r : request) : M response :=
  match r with
  | CreateTask u d => TaskListCreate_post u d
  | UpdateTask u pk d => TaskDetail_put u pk d
  | DeleteTask u pk => TaskDetail_delete u pk
  | AssignTask u pk d => TaskAssign_post u pk d
  | ChangeStatus u pk d => TaskChangeStatus_post u pk d
  | Report u => UserReports_get u
  end.

(** DRF's exception handling: [Http404] is a 404 response; any other
    exception escapes the view (a server error). *)
Definition serve (r : request) (s : store) : response * store :=
  match dispatch r s with
  | (Ok resp, s') => (resp, s')
  | (Raise Http404, s') => (HTTP_404_NOT_FOUND, s')
  | (Raise ValueError, s') | (Raise TypeError, s') | (Raise OverflowError, s') =>
      (HTTP_500_SERVER_ERROR, s')
  end.

Fixpoint run (rs : list request) (s : store) : list response * store :=
  match rs with
  | [] => ([], s)
  | r :: rs' =>
      let (resp, s1) := serve r s in
      let (resps, s2) := run rs' s1 in
      (resp :: resps, s2)
  end.

(** A fresh database: some users and categories, no task, no event log. *)
Definition init (us : list User) (cats : list Z) : store :=
  mkStore us cats [] [] 1.

Inductive reachable : store -> Prop :=
| reachable_init us cats : reachable (init us cats)
| reachable_step s r : reachable s -> reachable (snd (serve r s)).

(** Event log entries owned by a task. *)
Definition task_logs (pk : Z) (s : store) : list TaskEventLog :=
  filter (fun l => log_task l =? pk) (logs s).

Definition report_of (r : response) : option report :=
  match r with HTTP_200_REPORT r => Some r | _ => None end.

End Views.
Import Views.

(* ------------------------------------------------------------------ *)
(** ** Notions used in the statements *)

Module Notions.

(** Two payloads that agree on the writable fields of [TaskSerializer]. *)
Definition same_writable (p q : payload) : Prop :=
  p_name p = p_name q /\ p_description p = p_description q /\
  p_category p = p_category q /\ p_priority p = p_priority q.

(** Number of tasks of the store that satisfy [f]. *)
Definition count_tasks (f : Task -> bool) (s : store) : nat :=
  List.length (filter f (tasks s)).

Definition assigned_to (u : Z) (t : Task) : bool :=
  match assignee t with Some a => a =? u | None => false end.

Definition valid_status (t : Task) : Prop := In (status t) STATUS_CHOICES.

Definition statuses_valid (s : store) : Prop := Forall valid_status (tasks s).

(** How one answered request changes the number of event log entries of
    task [pk]: one more for every 201 / 200 answer of a write on [pk],
    none left after its deletion, no change otherwise. *)
Definition log_delta (pk : Z) (r : request) (resp : response) (n : nat) : nat :=
  match r, resp with
  | CreateTask _ _, HTTP_201_CREATED t => if task_pk t =? pk then S n else n
  | UpdateTask _ pk' _, HTTP_200_OK _
  | AssignTask _ pk' _, HTTP_200_OK _
  | ChangeStatus _ pk' _, HTTP_200_OK _ => if pk' =? pk then S n else n
  | DeleteTask _ pk', HTTP_200_DELETED _ => if pk' =? pk then O else n
  | _, _ => n
  end.

End Notions.
Import Notions.

(* ------------------------------------------------------------------ *)
(** ** The read-only views of [tasks/views.py] *)

Module ReadViews.

(** [TaskDetail.get]: the task, serialized. *)
Definition TaskDetail_get (pk : Z) : M Task :=
  task <- get_object pk;;
  ret task.

(** [TaskEventLogList.get]: the entries of [TaskEventLog] whose task is
    this one, in the model ordering ([created_on], i.e. insertion). *)
Definition TaskEventLogList_get (pk : Z) : M (list TaskEventLog) :=
  task <- get_object pk;;
  all_logs <- read logs;;
  ret (filter (fun l => log_task l =? task_pk task) all_logs).

(** The answer of the [UserReports] class of [tasks/views.py]. *)
Record report3 := mkReport3 {
  r3_created : nat;
  r3_completed : nat;
  r3_incompleted : nat
}.

(** [get_object] on [User.objects.all()] with [lookup_field = 'username']. *)
Definition get_user_by_username (uname : string) : M User :=
  fun s => match find (fun u => String.eqb (username u) uname) (users s) with
           | Some u => (Ok u, s)
           | None => (Raise Http404, s)
           end.

(** [tasks/views.py: UserReports.get] (a report by username, with the
    status literals 3 and [1, 2] of the source). *)
Definition UserReports_by_username_get (uname : string) : M report3 :=
  user <- get_user_by_username uname;;
  all_tasks <- read tasks;;
  let user_tasks :=
    filter (fun t => (reporter t =? user_pk user) || opt_Z_eqb (assignee t) (Some (user_pk user)))
      all_tasks in
  let created_tasks := List.length (filter (fun t => reporter t =? user_pk user) user_tasks) in
  let assigned_tasks := filter (fun t => opt_Z_eqb (assignee t) (Some (user_pk user))) user_tasks in
  let completed_tasks := List.length (filter (fun t => status t =? 3) assigned_tasks) in
  let incompleted_tasks :=
    List.length (filter (fun t => existsb (Z.eqb (status t)) [1; 2]) assigned_tasks) in
  ret (mkReport3 created_tasks completed_tasks incompleted_tasks).

End ReadViews.
Import ReadViews.

(* ------------------------------------------------------------------ *)
(** ** What one request does to the database *)

Module Effects.

(** The constraints of the serializer on a stored name: stripped of white
    space and not empty (so not blank), at most 300 code points, with no
    NUL and no surrogate. *)
Definition name_ok (n : Py.pystr) : Prop :=
  Py.strip n = n /\ n <> [] /\ (List.length n <= 300)%nat /\
  ~ In 0 n /\ Forall (fun c => is_surrogate c = false) n.

Definition fields_ok (s : store) (t : Task) : Prop :=
  name_ok (name t) /\ (List.length (description t) <= 2000)%nat /\
  In (category t) (categories s) /\ In (priority t) PRIORITY_CHOICES /\
  In (status t) STATUS_CHOICES.

(** Every field of [t'] is the one of [t0] or satisfies the serializer. *)
Definition field_step (s : store) (t0 t' : Task) : Prop :=
  (name t' = name t0 \/ name_ok (name t')) /\
  (description t' = description t0 \/ (List.length (description t') <= 2000)%nat) /\
  (category t' = category t0 \/ In (category t') (categories s)) /\
  (priority t' = priority t0 \/ In (priority t') PRIORITY_CHOICES) /\
  (status t' = status t0 \/ In (status t') STATUS_CHOICES).

(** The CREATED entry of a task, as [TaskListCreate.post] writes it. *)
Definition created_entry (t : Task) : TaskEventLog :=
  mkLog (task_pk t) (reporter t) EVENT_CREATED "Task created.".

(** Answers that come with no write. *)
Definition quiet (resp : response) : bool :=
  match resp with
  | HTTP_204_NO_CONTENT | HTTP_400_BAD_REQUEST _ | HTTP_404_NOT_FOUND
  | HTTP_500_SERVER_ERROR | HTTP_200_REPORT _ => true
  | _ => false
  end.

(** The four ways a request can end. *)
Inductive outcome (s : store) : response * store -> Prop :=
| outcome_quiet resp :
    quiet resp = true -> outcome s (resp, s)
| outcome_write t0 t' l :
    find_task (task_pk t0) s = Some t0 ->
    task_pk t' = task_pk t0 -> reporter t' = reporter t0 ->
    field_step s t0 t' -> log_task l = task_pk t0 -> log_event l <> EVENT_CREATED ->
    outcome s (HTTP_200_OK t',
               mkStore (users s) (categories s)
                 (map (fun x => if task_pk x =? task_pk t0 then t' else x) (tasks s))
                 (logs s ++ [l]) (next_pk s))
| outcome_create t :
    task_pk t = next_pk s -> fields_ok s t ->
    outcome s (HTTP_201_CREATED t,
               mkStore (users s) (categories s) (tasks s ++ [t])
                 (logs s ++ [created_entry t]) (next_pk s + 1))
| outcome_delete pk :
    find_task pk s <> None ->
    outcome s (HTTP_200_DELETED pk,
               mkStore (users s) (categories s)
                 (filter (fun x => negb (task_pk x =? pk)) (tasks s))
                 (filter (fun l => negb (log_task l =? pk)) (logs s)) (next_pk s)).

(** The invariant of the database under the views. *)
Record wf (s : store) : Prop := {
  wf_keys_below : Forall (fun t => task_pk t < next_pk s) (tasks s);
  wf_keys_unique : NoDup (map task_pk (tasks s));
  wf_no_orphans : Forall (fun l => In (log_task l) (map task_pk (tasks s))) (logs s);
  wf_created_first :
    forall t, In t (tasks s) ->
      exists rest, task_logs (task_pk t) s = created_entry t :: rest /\
                   Forall (fun l => log_event l <> EVENT_CREATED) rest;
  wf_fields : Forall (fields_ok s) (tasks s)
}.

End Effects.
Import Effects.

(* ------------------------------------------------------------------ *)
(** ** Concrete databases, after the fixtures of [tasks/tests.py] and
    [users/tests.py] *)

Module Fixtures.

Definition testuser : User := mkUser 1 "testuser".
Definition dummyuser : User := mkUser 2 "dummyuser".
Definition harry : User := mkUser 3 "harry".

(** Categories 10 (General) and 11 (Enhancement). *)
Definition db0 : store := init [testuser; dummyuser; harry] [10; 11].

(** [test_create_tasks]: the read-only keys ask for status DONE, reporter
    and assignee [dummyuser]. *)
Definition create_payload : payload :=
  mkPayload None (Some (Py.of_ascii "Test Task 1")) (Some (Py.of_ascii "Do this task first"))
    (Some 10) (Some PRIORITY_MEDIUM) (Some STATUS_DONE) (Some 2) (Some 2).

(** An update that sends the values the task already has. *)
Definition same_values_payload : payload :=
  mkPayload None (Some (Py.of_ascii "Test Task 1")) (Some (Py.of_ascii "Do this task first"))
    (Some 10) (Some PRIORITY_MEDIUM) None None None.

Definition same_values_validated : validated :=
  mkValidated (Some (Py.of_ascii "Test Task 1")) (Some (Py.of_ascii "Do this task first"))
    (Some 10) (Some PRIORITY_MEDIUM).

(** The task that [create_payload] creates for [testuser]. *)
Definition task1 : Task :=
  mkTask 1 (Py.of_ascii "Test Task 1") (Py.of_ascii "Do this task first") 10 PRIORITY_MEDIUM STATUS_TODO 1 None.

Definition task1_assigned : Task :=
  mkTask 1 (Py.of_ascii "Test Task 1") (Py.of_ascii "Do this task first") 10 PRIORITY_MEDIUM STATUS_TODO 1 (Some 2).

(** One task, unassigned. *)
Definition db1 : store := snd (serve (CreateTask 1 create_payload) db0).

(** The same task assigned to [dummyuser] (the form data ['2']). *)
Definition db_assigned : store := snd (serve (AssignTask 1 1 (Some (PyStr (Py.of_ascii "2")))) db1).

(** The same task assigned to [testuser] and DONE. *)
Definition db_done : store :=
  snd (serve (ChangeStatus 1 1 (Some STATUS_DONE))
         (snd (serve (AssignTask 1 1 (Some (PyStr (Py.of_ascii "1")))) db1))).

(** A request body with no key at all. *)
Definition empty_payload : payload :=
  mkPayload None None None None None None None None.


(** [create_payload] with its name between a no-break space and an
    ideographic space. *)
Definition padded_payload : payload :=
  mkPayload None (Some ([160] ++ Py.of_ascii "Test Task 1" ++ [12288]))
    (Some (Py.of_ascii "Do this task first")) (Some 10) None None None None.

(** Two tasks, created by [testuser] and [dummyuser]. *)
Definition db_two : store := snd (serve (CreateTask 2 create_payload) db1).

(** Task 1 once assigned to [testuser] and DONE. *)
Definition task1_done : Task :=
  mkTask 1 (Py.of_ascii "Test Task 1") (Py.of_ascii "Do this task first") 10 PRIORITY_MEDIUM STATUS_DONE 1 (Some 1).

End Fixtures.
Import Fixtures.

(* ================================================================== *)
(** * Properties *)

(** ** Lemmas on the store *)

Lemma find_task_pk pk s t : find_task pk s = Some t -> task_pk t = pk.
Proof.
  unfold find_task; intros H; apply find_some in H as [_ H]; now apply Z.eqb_eq.
Qed.

Lemma find_task_existsb pk s t :
  find_task pk s = Some t -> existsb (fun x => task_pk x =? pk) (tasks s) = true.
Proof.
  unfold find_task; intros H; apply existsb_exists; exists t.
  now apply find_some in H.
Qed.

Lemma find_replace (pk : Z) (t' : Task) (l : list Task) :
  task_pk t' = pk -> existsb (fun x => task_pk x =? pk) l = true ->
  find (fun x => task_pk x =? pk) (map (fun x => if task_pk x =? pk then t' else x) l)
  = Some t'.
Proof.
  intros Hpk; induction l as [|x l IH]; simpl; [discriminate|].
  destruct (task_pk x =? pk) eqn:E; simpl.
  - rewrite Hpk, Z.eqb_refl; reflexivity.
  - rewrite E; exact IH.
Qed.

Lemma find_filter_out (pk : Z) (l : list Task) :
  find (fun x => task_pk x =? pk) (filter (fun x => negb (task_pk x =? pk)) l) = None.
Proof.
  induction l as [|x l IH]; simpl; [reflexivity|].
  destruct (task_pk x =? pk) eqn:E; simpl; [exact IH|].
  rewrite E; exact IH.
Qed.

Lemma filter_filter_and {A} (f g : A -> bool) (l : list A) :
  filter f (filter g l) = filter (fun x => g x && f x)%bool l.
Proof.
  induction l as [|x l IH]; simpl; [reflexivity|].
  destruct (g x); simpl; [destruct (f x); simpl|]; rewrite IH; reflexivity.
Qed.

(** [save_task] of a task whose key is in the table replaces that row. *)
Lemma save_task_existing pk t' s :
  task_pk t' = pk -> existsb (fun x => task_pk x =? pk) (tasks s) = true ->
  save_task t' s =
  (Ok tt, set_tasks s (map (fun x => if task_pk x =? pk then t' else x) (tasks s))).
Proof.
  intros Hpk Hex; unfold save_task, modify; rewrite Hpk, Hex; reflexivity.
Qed.

(** ** The serializer reads only the writable fields *)


Lemma TaskSerializer_is_valid_writable partial p q s :
  same_writable p q ->
  TaskSerializer_is_valid partial p s = TaskSerializer_is_valid partial q s.
Proof.
  intros (H1 & H2 & H3 & H4); unfold TaskSerializer_is_valid.
  rewrite H1, H2, H3, H4; reflexivity.
Qed.

Lemma TaskListCreate_post_writable u p q s :
  same_writable p q -> TaskListCreate_post u p s = TaskListCreate_post u q s.
Proof.
  intros H; unfold TaskListCreate_post, bind, read; simpl.
  rewrite (TaskSerializer_is_valid_writable false p q s H); reflexivity.
Qed.

Lemma TaskDetail_put_writable u pk p q s :
  same_writable p q -> TaskDetail_put u pk p s = TaskDetail_put u pk q s.
Proof.
  intros H; unfold TaskDetail_put, bind, read, get_object.
  destruct (find_task pk s); [|reflexivity].
  rewrite (TaskSerializer_is_valid_writable true p q s H); reflexivity.
Qed.

(** ** C1: reporter, assignee and status are never taken from the client *)

(** C1: a task created by [TaskListCreate.post] has the acting user as
    reporter, status TODO and no assignee, and is the row inserted; the
    outcome of create and of update does not depend on the [id],
    [status], [reporter] and [assignee] keys of the payload (they are
    dropped, not rejected); and a successful update keeps the task's key,
    status, reporter and assignee, replacing only that row. *)
Theorem C1_read_only_fields_dropped (s : store) (u : Z) (p : payload) :
  (forall t s', TaskListCreate_post u p s = (Ok (HTTP_201_CREATED t), s') ->
     reporter t = u /\ status t = STATUS_TODO /\ assignee t = None /\
     tasks s' = tasks s ++ [t])
  /\ (forall q, same_writable p q ->
        TaskListCreate_post u p s = TaskListCreate_post u q s /\
        forall pk, TaskDetail_put u pk p s = TaskDetail_put u pk q s)
  /\ (forall pk t0 t s', find_task pk s = Some t0 ->
        TaskDetail_put u pk p s = (Ok (HTTP_200_OK t), s') ->
        task_pk t = task_pk t0 /\ status t = status t0 /\
        reporter t = reporter t0 /\ assignee t = assignee t0 /\
        tasks s' = map (fun x => if task_pk x =? pk then t else x) (tasks s)).
Proof.
  split; [|split].
  - intros t s'; unfold TaskListCreate_post, bind, read, insert_task, log_save, modify, ret.
    simpl; destruct (TaskSerializer_is_valid false p s); simpl; intros H; inversion H.
    subst; simpl; repeat split; reflexivity.
  - intros q Hq; split; [now apply TaskListCreate_post_writable|].
    intros pk; now apply TaskDetail_put_writable.
  - intros pk t0 t s' Hf.
    pose proof (find_task_pk _ _ _ Hf) as Hpk.
    pose proof (find_task_existsb _ _ _ Hf) as Hex.
    unfold TaskDetail_put, bind, read, get_object, ret; rewrite Hf.
    destruct (TaskSerializer_is_valid true p s) as [e|vd]; [discriminate|].
    rewrite (save_task_existing pk); [| simpl; exact Hpk | exact Hex].
    unfold log_save, modify; simpl; intros H; inversion H; subst.
    simpl; repeat split; reflexivity.
Qed.

(** ** Change status *)

(** C3: on an existing task, [TaskChangeStatus.post] with a supplied
    status [z] answers 400 on the [status] field and changes nothing when
    [z] is not one of the three statuses; answers 204 and changes nothing
    when [z] is the current status; and otherwise, whatever the current
    status, sets the status to [z], saves the task and appends exactly one
    STATUS_CHANGED entry for it. On an absent task it raises [Http404]. *)
Theorem C3_change_status_outcomes (s : store) (u pk z : Z) :
  match find_task pk s with
  | None => TaskChangeStatus_post u pk (Some z) s = (Raise Http404, s)
  | Some t0 =>
      if negb (existsb (Z.eqb z) STATUS_CHOICES) then
        TaskChangeStatus_post u pk (Some z) s = (Ok (HTTP_400_BAD_REQUEST ["status"%string]), s)
      else if z =? status t0 then
        TaskChangeStatus_post u pk (Some z) s = (Ok HTTP_204_NO_CONTENT, s)
      else
        exists t' s' d,
          TaskChangeStatus_post u pk (Some z) s = (Ok (HTTP_200_OK t'), s') /\
          t' = mkTask (task_pk t0) (name t0) (description t0) (category t0)
                 (priority t0) z (reporter t0) (assignee t0) /\
          find_task pk s' = Some t' /\
          logs s' = logs s ++ [mkLog pk u EVENT_STATUS_CHANGED d]
  end.
Proof.
  destruct (find_task pk s) as [t0|] eqn:Hf;
    unfold TaskChangeStatus_post, bind, get_object; rewrite Hf; [|reflexivity].
  pose proof (find_task_pk _ _ _ Hf) as Hpk.
  pose proof (find_task_existsb _ _ _ Hf) as Hex.
  unfold TaskStatusSerializer_is_valid, run_field, choice_field.
  destruct (existsb (Z.eqb z) STATUS_CHOICES) eqn:Hc; cbn -[save_task log_save];
    [|reflexivity].
  destruct (z =? status t0) eqn:Heq; [reflexivity|].
  rewrite (save_task_existing pk); [| simpl; exact Hpk | exact Hex].
  unfold log_save, modify, ret; simpl.
  eexists _, _, _; split; [reflexivity|]; split; [reflexivity|]; split.
  - unfold find_task; simpl; apply find_replace; [exact Hpk | exact Hex].
  - rewrite Hpk; reflexivity.
Qed.

(** C10: on an existing task, [TaskChangeStatus.post] with no [status]
    key is neither rejected nor a no-op: the partial serializer validates,
    [None == task.status] is false, the task is saved unchanged and one
    STATUS_CHANGED entry is appended (a 200 answer). *)
Theorem C10_change_status_absent_logs (s : store) (u pk : Z) (t0 : Task)
  (Hf : find_task pk s = Some t0) :
  exists s' d,
    TaskChangeStatus_post u pk None s = (Ok (HTTP_200_OK t0), s') /\
    find_task pk s' = Some t0 /\
    logs s' = logs s ++ [mkLog pk u EVENT_STATUS_CHANGED d].
Proof.
  pose proof (find_task_pk _ _ _ Hf) as Hpk.
  pose proof (find_task_existsb _ _ _ Hf) as Hex.
  unfold TaskChangeStatus_post, bind, get_object; rewrite Hf; cbn -[save_task log_save].
  assert (Hu : TaskStatusSerializer_update t0 None = t0) by (destruct t0; reflexivity).
  rewrite Hu, (save_task_existing pk); [| exact Hpk | exact Hex].
  unfold log_save, modify, ret; simpl.
  eexists _, _; split; [reflexivity|]; split.
  - unfold find_task; simpl; apply find_replace; [exact Hpk | exact Hex].
  - rewrite Hpk; reflexivity.
Qed.

(** ** Delete *)

(** C6: [TaskDetail.delete] raises [Http404] on an absent task; on an
    existing one it removes the task row and, by the CASCADE, every event
    log entry of the task (their number becomes 0) and adds no entry: the
    log afterwards is the log before without the task's entries. *)
Theorem C6_delete_cascades (s : store) (u pk : Z) :
  match find_task pk s with
  | None => TaskDetail_delete u pk s = (Raise Http404, s)
  | Some _ =>
      exists s',
        TaskDetail_delete u pk s = (Ok (HTTP_200_DELETED pk), s') /\
        find_task pk s' = None /\
        List.length (task_logs pk s') = 0%nat /\
        logs s' = filter (fun l => negb (log_task l =? pk)) (logs s) /\
        tasks s' = filter (fun x => negb (task_pk x =? pk)) (tasks s)
  end.
Proof.
  destruct (find_task pk s) as [t0|] eqn:Hf;
    unfold TaskDetail_delete, bind, get_object; rewrite Hf; [|reflexivity].
  pose proof (find_task_pk _ _ _ Hf) as Hpk.
  unfold delete_task, modify, ret; rewrite Hpk; simpl.
  eexists; split; [reflexivity|]; split; [|split; [|split; reflexivity]].
  - unfold find_task; simpl; apply find_filter_out.
  - unfold task_logs; simpl; rewrite filter_filter_and.
    induction (logs s) as [|l ls IH]; simpl; [reflexivity|].
    destruct (log_task l =? pk); simpl; exact IH.
Qed.

(** ** Update *)

(** C9: on an existing task, every [TaskDetail.put] whose payload
    validates answers 200 and appends exactly one EDITED entry
    ("Task edited."), with no check whether a field changed. *)
Theorem C9_update_always_logs (s : store) (u pk : Z) (p : payload) (t0 : Task)
  (vd : validated)
  (Hf : find_task pk s = Some t0)
  (Hv : TaskSerializer_is_valid true p s = inr vd) :
  exists s',
    TaskDetail_put u pk p s = (Ok (HTTP_200_OK (TaskSerializer_update t0 vd)), s') /\
    logs s' = logs s ++ [mkLog pk u EVENT_EDITED "Task edited."].
Proof.
  pose proof (find_task_pk _ _ _ Hf) as Hpk.
  pose proof (find_task_existsb _ _ _ Hf) as Hex.
  unfold TaskDetail_put, bind, read, get_object; rewrite Hf; cbn -[save_task log_save].
  rewrite Hv.
  rewrite (save_task_existing pk); [| simpl; exact Hpk | exact Hex].
  unfold log_save, modify, ret; simpl.
  eexists; split; [reflexivity|]; rewrite Hpk; reflexivity.
Qed.

(** ** Assign *)

(** No user row matches [pk__isnull=True]. *)
Lemma find_isnull (l : list User) : find (fun _ : User => false) l = None.
Proof. induction l; simpl; [reflexivity | exact IHl]. Qed.

Lemma resolve_user_null (v : option pyval) (s : store) :
  dict_get v = PyNone -> resolve_user v s = (Raise Http404, s).
Proof.
  intros Hv; unfold resolve_user, try_except_ValueError, get_object_or_404_User, bind.
  rewrite Hv; simpl; rewrite find_isnull; reflexivity.
Qed.

(** Case analysis on the lookups and key conversions of a goal. *)
Ltac case_lookups :=
  repeat (simpl; match goal with
                 | |- context [find ?f ?l] => destruct (find f l)
                 | |- context [Py.int_of_string ?x] => destruct (Py.int_of_string x)
                 end).

(** The target resolution reads the store and never writes it. *)
Lemma resolve_user_store (v : option pyval) (s : store) :
  snd (resolve_user v s) = s.
Proof.
  unfold resolve_user, try_except_ValueError, get_object_or_404_User, bind, ret, raise.
  destruct (dict_get v) as [|str|z|[|]|[z| |]| |]; case_lookups; reflexivity.
Qed.

(** The target resolution ends with a user or [None], or raises an
    exception other than the caught [ValueError]. *)
Lemma resolve_user_raise (v : option pyval) (s : store) :
  (exists r, resolve_user v s = (Ok r, s)) \/
  (exists e, e <> ValueError /\ resolve_user v s = (Raise e, s)).
Proof.
  pose proof (resolve_user_store v s) as Hs.
  destruct (resolve_user v s) as [[r|e] s'] eqn:E; simpl in Hs; subst s'.
  - left; exists r; reflexivity.
  - right; exists e; split; [|reflexivity].
    intros ->; revert E.
    unfold resolve_user, try_except_ValueError, get_object_or_404_User, bind, ret, raise.
    destruct (dict_get v) as [|str|z|[|]|[z| |]| |]; case_lookups; discriminate.
Qed.

(** [TaskAssign.post] once the target is resolved: the task ends with the
    resolved target as assignee, and nothing is written when it already
    had it. *)
Lemma TaskAssign_post_resolved (s : store) (u pk : Z) (v : option pyval)
  (t0 : Task) (r : option User) :
  find_task pk s = Some t0 -> resolve_user v s = (Ok r, s) ->
  exists resp s',
    TaskAssign_post u pk v s = (Ok resp, s') /\
    option_map assignee (find_task pk s') = Some (option_map user_pk r) /\
    (assignee t0 = option_map user_pk r -> resp = HTTP_204_NO_CONTENT /\ s' = s).
Proof.
  intros Hf Hr.
  pose proof (find_task_pk _ _ _ Hf) as Hpk.
  pose proof (find_task_existsb _ _ _ Hf) as Hex.
  unfold TaskAssign_post, bind at 1, get_object; rewrite Hf.
  unfold bind at 1; rewrite Hr.
  destruct (opt_Z_eqb (assignee t0) (option_map user_pk r)) eqn:E.
  - exists HTTP_204_NO_CONTENT, s; split; [reflexivity|]; split; [|tauto].
    rewrite Hf; simpl; f_equal.
    destruct (assignee t0) as [a|], (option_map user_pk r) as [b|]; simpl in E;
      try discriminate; [apply Z.eqb_eq in E; subst|]; reflexivity.
  - unfold bind; rewrite (save_task_existing pk); [| simpl; exact Hpk | exact Hex].
    unfold log_save, modify, ret; simpl.
    eexists _, _; split; [reflexivity|]; split.
    + unfold find_task; simpl; rewrite find_replace; [reflexivity | exact Hpk | exact Hex].
    + intros Ha; rewrite Ha in E.
      destruct (option_map user_pk r) as [b|]; simpl in E; [rewrite Z.eqb_refl in E|];
        discriminate.
Qed.

Lemma TaskAssign_post_raise (s : store) (u pk : Z) (v : option pyval) (t0 : Task)
  (e : exn) :
  find_task pk s = Some t0 -> resolve_user v s = (Raise e, s) ->
  TaskAssign_post u pk v s = (Raise e, s).
Proof.
  intros Hf Hr; unfold TaskAssign_post, bind at 1, get_object; rewrite Hf.
  unfold bind at 1; rewrite Hr; reflexivity.
Qed.

(** C7: on an existing task, [TaskAssign.post] with a target that
    resolves to the current assignee (both [None] included) answers 204
    and writes nothing, so two such calls in a row answer 204 twice and
    leave the store, event log included, as it was. *)
Theorem C7_assign_idempotent (s : store) (u pk : Z) (v : option pyval) (t0 : Task)
  (r : option User)
  (Hf : find_task pk s = Some t0)
  (Hr : fst (resolve_user v s) = Ok r)
  (Heq : assignee t0 = option_map user_pk r) :
  TaskAssign_post u pk v s = (Ok HTTP_204_NO_CONTENT, s) /\
  run [AssignTask u pk v; AssignTask u pk v] s =
    ([HTTP_204_NO_CONTENT; HTTP_204_NO_CONTENT], s).
Proof.
  assert (Hr' : resolve_user v s = (Ok r, s)).
  { pose proof (resolve_user_store v s) as Hs.
    destruct (resolve_user v s); simpl in *; subst; reflexivity. }
  destruct (TaskAssign_post_resolved s u pk v t0 r Hf Hr')
    as (resp & s' & H1 & _ & H3).
  destruct (H3 Heq); subst resp s'.
  split; [exact H1|].
  simpl; unfold serve; simpl; rewrite H1; simpl; rewrite H1; reflexivity.
Qed.

(** ** The user report *)



(** C5: [UserReports.get] answers, for the acting user [u], the number of
    tasks reported by [u], assigned to [u], assigned to [u] with status
    DONE, and assigned to [u] with status TODO or IN_PROGRESS; it leaves
    the store as it was, and the answer depends on the task rows only
    (replacing the event log changes nothing). *)
Theorem C5_report_counts (s : store) (u : Z) :
  UserReports_get u s =
    (Ok (HTTP_200_REPORT (mkReport
       (count_tasks (fun t => reporter t =? u) s)
       (count_tasks (assigned_to u) s)
       (count_tasks (fun t => assigned_to u t && (status t =? STATUS_DONE)) s)
       (count_tasks (fun t => assigned_to u t &&
                      ((status t =? STATUS_TODO) || (status t =? STATUS_IN_PROGRESS))) s))),
     s) /\
  forall ls, fst (UserReports_get u (set_logs s ls)) = fst (UserReports_get u s).
Proof.
  split; [|reflexivity].
  unfold UserReports_get, bind, read, ret, count_tasks; simpl.
  rewrite !filter_filter_and.
  assert (Ha : forall t, opt_Z_eqb (assignee t) (Some u) = assigned_to u t)
    by (intros t; unfold assigned_to; destruct (assignee t); reflexivity).
  rewrite (filter_ext _ _ Ha).
  rewrite (filter_ext (fun t => opt_Z_eqb (assignee t) (Some u) && (status t =? STATUS_DONE))%bool
             (fun t => assigned_to u t && (status t =? STATUS_DONE))%bool)
    by (intros t; rewrite Ha; reflexivity).
  rewrite (filter_ext
             (fun t => opt_Z_eqb (assignee t) (Some u) &&
                       existsb (Z.eqb (status t)) [STATUS_TODO; STATUS_IN_PROGRESS])%bool
             (fun t => assigned_to u t &&
                       ((status t =? STATUS_TODO) || (status t =? STATUS_IN_PROGRESS)))%bool).
  - reflexivity.
  - intros t; rewrite Ha; simpl; rewrite orb_false_r; reflexivity.
Qed.

(** ** Every reachable task has one of the three statuses *)



Lemma Forall_replace (P : Task -> Prop) (pk : Z) (t : Task) (l : list Task) :
  Forall P l -> P t -> Forall P (map (fun x => if task_pk x =? pk then t else x) l).
Proof.
  intros H Ht; induction H as [|x l Hx _ IH]; simpl; constructor; auto.
  destruct (task_pk x =? pk); assumption.
Qed.

Lemma find_task_valid (s : store) (pk : Z) (t : Task) :
  statuses_valid s -> find_task pk s = Some t -> valid_status t.
Proof.
  intros Hv Hf; unfold find_task in Hf; apply find_some in Hf as [Hin _].
  exact (proj1 (Forall_forall _ _) Hv t Hin).
Qed.

Lemma save_task_valid (t : Task) (s : store) :
  statuses_valid s -> valid_status t -> statuses_valid (snd (save_task t s)).
Proof.
  intros Hv Ht; unfold save_task, modify, statuses_valid; simpl.
  destruct (existsb _ _); simpl.
  - apply Forall_replace; assumption.
  - apply Forall_app; split; [exact Hv | constructor; [exact Ht | constructor]].
Qed.

Lemma choice_valid (z : Z) :
  existsb (Z.eqb z) STATUS_CHOICES = true -> In z STATUS_CHOICES.
Proof.
  intros H; apply existsb_exists in H as (x & Hx & E); apply Z.eqb_eq in E; subst; exact Hx.
Qed.

Lemma Forall_filter_sub {A} (P : A -> Prop) (f : A -> bool) (l : list A) :
  Forall P l -> Forall P (filter f l).
Proof.
  induction 1 as [|x l Hx _ IH]; simpl; [constructor|].
  destruct (f x); [constructor|]; assumption.
Qed.

Lemma serve_store (r : request) (s : store) : snd (serve r s) = snd (dispatch r s).
Proof. unfold serve; destruct (dispatch r s) as [[a|[| | |]] s']; reflexivity. Qed.

(** The tail of every writing view: save the task, append a log entry,
    answer. *)
Lemma save_then_log_valid (pk : Z) (t' : Task) (l : TaskEventLog) (resp : response)
    (s : store) :
  statuses_valid s -> task_pk t' = pk ->
  existsb (fun x => task_pk x =? pk) (tasks s) = true -> valid_status t' ->
  statuses_valid (snd ((_ <- save_task t';; _ <- log_save l;; ret resp) s)).
Proof.
  intros Hv Hpk Hex Ht; unfold bind at 1; rewrite (save_task_existing pk t' s Hpk Hex).
  unfold bind, log_save, modify, ret, statuses_valid; simpl.
  apply Forall_replace; assumption.
Qed.

Lemma dispatch_valid (r : request) (s : store) :
  statuses_valid s -> statuses_valid (snd (dispatch r s)).
Proof.
  intros Hv; destruct r as [u p|u pk p|u pk|u pk v|u pk d|u]; simpl.
  - unfold TaskListCreate_post, bind, read, insert_task, log_save, modify, ret; simpl.
    destruct (TaskSerializer_is_valid false p s); simpl; [exact Hv|].
    unfold statuses_valid; simpl; apply Forall_app; split; [exact Hv|].
    constructor; [unfold valid_status; simpl; tauto | constructor].
  - unfold TaskDetail_put, bind at 1, get_object.
    destruct (find_task pk s) as [t0|] eqn:Hf; [|exact Hv].
    unfold bind at 1, read; cbn -[save_task log_save].
    destruct (TaskSerializer_is_valid true p s); [exact Hv|].
    apply (save_then_log_valid pk); auto.
    + simpl; exact (find_task_pk _ _ _ Hf).
    + exact (find_task_existsb _ _ _ Hf).
    + exact (find_task_valid _ _ _ Hv Hf).
  - unfold TaskDetail_delete, bind, get_object.
    destruct (find_task pk s) as [t0|]; [|exact Hv].
    unfold delete_task, modify, ret, statuses_valid; simpl.
    apply Forall_filter_sub; exact Hv.
  - unfold TaskAssign_post, bind at 1, get_object.
    destruct (find_task pk s) as [t0|] eqn:Hf; [|exact Hv].
    destruct (resolve_user_raise v s) as [[r Hr]|[e [_ Hr]]]; unfold bind at 1; rewrite Hr;
      [|exact Hv].
    destruct (opt_Z_eqb _ _); [exact Hv|].
    apply (save_then_log_valid pk); auto.
    + simpl; exact (find_task_pk _ _ _ Hf).
    + exact (find_task_existsb _ _ _ Hf).
    + exact (find_task_valid _ _ _ Hv Hf).
  - unfold TaskChangeStatus_post, bind at 1, get_object.
    destruct (find_task pk s) as [t0|] eqn:Hf; [|exact Hv].
    unfold TaskStatusSerializer_is_valid, run_field.
    destruct d as [z|]; cbn -[save_task log_save].
    + unfold choice_field; destruct (existsb (Z.eqb z) STATUS_CHOICES) eqn:Hc;
        cbn -[save_task log_save]; [|exact Hv].
      destruct (z =? status t0); [exact Hv|].
      apply (save_then_log_valid pk); auto.
      * simpl; exact (find_task_pk _ _ _ Hf).
      * exact (find_task_existsb _ _ _ Hf).
      * unfold valid_status; simpl; exact (choice_valid z Hc).
    + apply (save_then_log_valid pk); auto.
      * simpl; exact (find_task_pk _ _ _ Hf).
      * exact (find_task_existsb _ _ _ Hf).
      * exact (find_task_valid _ _ _ Hv Hf).
  - exact Hv.
Qed.

Lemma reachable_statuses_valid (s : store) : reachable s -> statuses_valid s.
Proof.
  induction 1 as [us cats|s r _ IH].
  - constructor.
  - rewrite serve_store; apply dispatch_valid; exact IH.
Qed.

Lemma count_partition {A} (f g : A -> bool) (l : list A) :
  Forall (fun x => f x = negb (g x)) l ->
  Nat.add (List.length (filter f l)) (List.length (filter g l)) = List.length l.
Proof.
  induction 1 as [|x l Hx _ IH]; simpl; [reflexivity|].
  rewrite Hx; destruct (g x); simpl; lia.
Qed.

Lemma done_plus_open (l : list Task) :
  Forall valid_status l ->
  Nat.add (List.length (filter (fun t => status t =? STATUS_DONE) l))
    (List.length (filter (fun t => existsb (Z.eqb (status t)) [STATUS_TODO; STATUS_IN_PROGRESS]) l))
  = List.length l.
Proof.
  intros H; apply count_partition; revert H; apply Forall_impl.
  intros t Ht; unfold valid_status, STATUS_CHOICES in Ht; simpl in Ht.
  destruct Ht as [H|[H|[H|[]]]]; rewrite <- H; reflexivity.
Qed.

(** C8: in every store reachable from a fresh database through the
    views, the report of every user has
    completed + incompleted = assigned. *)
Theorem C8_report_partition (s : store) (u : Z) (r : report)
  (Hreach : reachable s)
  (Hr : report_of (fst (serve (Report u) s)) = Some r) :
  (completed r + incompleted r = assigned r)%nat.
Proof.
  pose proof (reachable_statuses_valid s Hreach) as Hv.
  unfold serve in Hr; simpl in Hr.
  unfold UserReports_get, bind, read, ret in Hr; simpl in Hr.
  inversion Hr; subst r; simpl.
  apply done_plus_open, Forall_filter_sub, Hv.
Qed.

(** ** Event log bookkeeping *)


Lemma task_logs_append (pk : Z) (l : TaskEventLog) (s : store) :
  List.length (task_logs pk (set_logs s (logs s ++ [l]))) =
  if log_task l =? pk then S (List.length (task_logs pk s))
  else List.length (task_logs pk s).
Proof.
  unfold task_logs; simpl; rewrite filter_app, length_app; simpl.
  destruct (log_task l =? pk); simpl; lia.
Qed.

Lemma save_then_log_count (pk pk' : Z) (t' : Task) (l : TaskEventLog) (resp : response)
    (s : store) :
  task_pk t' = pk' -> existsb (fun x => task_pk x =? pk') (tasks s) = true ->
  log_task l = pk' ->
  exists s',
    (_ <- save_task t';; _ <- log_save l;; ret resp) s = (Ok resp, s') /\
    List.length (task_logs pk s') =
      if pk' =? pk then S (List.length (task_logs pk s)) else List.length (task_logs pk s).
Proof.
  intros Hpk Hex Hl; unfold bind at 1; rewrite (save_task_existing pk' t' s Hpk Hex).
  unfold bind, log_save, modify, ret; simpl.
  eexists; split; [reflexivity|].
  change (logs (set_tasks s (map (fun x => if task_pk x =? pk' then t' else x) (tasks s))))
    with (logs s).
  rewrite <- Hl.
  rewrite <- (task_logs_append pk l s); reflexivity.
Qed.

Lemma delete_task_logs (pk pk' : Z) (s : store) :
  task_logs pk (set_logs s (filter (fun l => negb (log_task l =? pk')) (logs s))) =
  if pk' =? pk then [] else task_logs pk s.
Proof.
  unfold task_logs; simpl; rewrite filter_filter_and.
  destruct (pk' =? pk) eqn:E.
  - apply Z.eqb_eq in E; subst pk'.
    induction (logs s) as [|l ls IH]; simpl; [reflexivity|].
    destruct (log_task l =? pk); simpl; exact IH.
  - apply filter_ext; intros l.
    destruct (log_task l =? pk) eqn:El; [|apply andb_false_r].
    apply Z.eqb_eq in El; subst pk.
    rewrite Z.eqb_sym, E; reflexivity.
Qed.

(** Each answered request changes the number of event log entries of
    every task as [log_delta] says. *)
Lemma serve_log_count (r : request) (s : store) (pk : Z) :
  List.length (task_logs pk (snd (serve r s))) =
  log_delta pk r (fst (serve r s)) (List.length (task_logs pk s)).
Proof.
  destruct r as [u p|u pk' p|u pk'|u pk' v|u pk' d|u]; unfold serve; simpl.
  - unfold TaskListCreate_post, bind, read, insert_task, log_save, modify, ret; simpl.
    destruct (TaskSerializer_is_valid false p s); simpl; [reflexivity|].
    change (List.length (task_logs pk (set_logs s (logs s ++
      [mkLog (next_pk s) u EVENT_CREATED "Task created."]))) =
      (if next_pk s =? pk then S (List.length (task_logs pk s))
       else List.length (task_logs pk s))).
    apply task_logs_append.
  - destruct (find_task pk' s) as [t0|] eqn:Hf.
    + destruct (TaskSerializer_is_valid true p s) as [e|vd] eqn:Hv.
      * assert (E : TaskDetail_put u pk' p s = (Ok (HTTP_400_BAD_REQUEST e), s))
          by (unfold TaskDetail_put, bind, get_object, read; rewrite Hf; simpl; rewrite Hv;
              reflexivity).
        rewrite E; reflexivity.
      * destruct (save_then_log_count pk pk' (TaskSerializer_update t0 vd)
                    (mkLog (task_pk (TaskSerializer_update t0 vd)) u EVENT_EDITED "Task edited.")
                    (HTTP_200_OK (TaskSerializer_update t0 vd)) s)
          as (s' & E & C);
          [simpl; exact (find_task_pk _ _ _ Hf) | exact (find_task_existsb _ _ _ Hf)
          | simpl; exact (find_task_pk _ _ _ Hf) |].
        assert (E' : TaskDetail_put u pk' p s = (Ok (HTTP_200_OK (TaskSerializer_update t0 vd)), s'))
          by (unfold TaskDetail_put, bind at 1, get_object; rewrite Hf;
              unfold bind at 1, read; cbn -[save_task log_save]; rewrite Hv; exact E).
        rewrite E'; exact C.
    + assert (E : TaskDetail_put u pk' p s = (Raise Http404, s))
        by (unfold TaskDetail_put, bind, get_object; rewrite Hf; reflexivity).
      rewrite E; reflexivity.
  - destruct (find_task pk' s) as [t0|] eqn:Hf.
    + assert (E : TaskDetail_delete u pk' s =
                  (Ok (HTTP_200_DELETED pk'),
                   set_tasks (set_logs s (filter (fun l => negb (log_task l =? pk')) (logs s)))
                     (filter (fun x => negb (task_pk x =? pk')) (tasks s))))
        by (unfold TaskDetail_delete, bind, get_object, delete_task, modify, ret; rewrite Hf;
            rewrite (find_task_pk _ _ _ Hf); reflexivity).
      rewrite E; simpl.
      change (List.length (task_logs pk (set_logs s (filter (fun l => negb (log_task l =? pk'))
                (logs s)))) =
              (if pk' =? pk then O else List.length (task_logs pk s))).
      rewrite delete_task_logs; destruct (pk' =? pk); reflexivity.
    + assert (E : TaskDetail_delete u pk' s = (Raise Http404, s))
        by (unfold TaskDetail_delete, bind, get_object; rewrite Hf; reflexivity).
      rewrite E; reflexivity.
  - destruct (find_task pk' s) as [t0|] eqn:Hf.
    + destruct (resolve_user_raise v s) as [[r Hr]|[e [_ Hr]]].
      * destruct (opt_Z_eqb (assignee t0) (option_map user_pk r)) eqn:Heq.
        -- assert (E : TaskAssign_post u pk' v s = (Ok HTTP_204_NO_CONTENT, s))
             by (unfold TaskAssign_post, bind at 1, get_object; rewrite Hf;
                 unfold bind at 1; rewrite Hr, Heq; reflexivity).
           rewrite E; reflexivity.
        -- set (t' := mkTask (task_pk t0) (name t0) (description t0) (category t0)
                        (priority t0) (status t0) (reporter t0) (option_map user_pk r)).
           set (l := mkLog (task_pk t') u EVENT_ASSIGNED
                       ("Task assigned to " ++ str_user r ++ ".")%string).
           destruct (save_then_log_count pk pk' t' l (HTTP_200_OK t') s) as (s' & E & C);
             [simpl; exact (find_task_pk _ _ _ Hf) | exact (find_task_existsb _ _ _ Hf)
             | simpl; exact (find_task_pk _ _ _ Hf) |].
           assert (E' : TaskAssign_post u pk' v s = (Ok (HTTP_200_OK t'), s'))
             by (unfold TaskAssign_post, bind at 1, get_object; rewrite Hf;
                 unfold bind at 1; rewrite Hr, Heq; exact E).
           rewrite E'; exact C.
      * assert (E : TaskAssign_post u pk' v s = (Raise e, s))
          by (apply (TaskAssign_post_raise _ _ _ _ t0 e Hf Hr)).
        rewrite E; destruct e; reflexivity.
    + assert (E : TaskAssign_post u pk' v s = (Raise Http404, s))
        by (unfold TaskAssign_post, bind, get_object; rewrite Hf; reflexivity).
      rewrite E; reflexivity.
  - destruct (find_task pk' s) as [t0|] eqn:Hf.
    + destruct (TaskStatusSerializer_is_valid d) as [e|vd] eqn:Hv.
      * assert (E : TaskChangeStatus_post u pk' d s = (Ok (HTTP_400_BAD_REQUEST e), s))
          by (unfold TaskChangeStatus_post, bind, get_object; rewrite Hf, Hv; reflexivity).
        rewrite E; reflexivity.
      * destruct (py_eq_status vd (status t0)) eqn:Heq.
        -- assert (E : TaskChangeStatus_post u pk' d s = (Ok HTTP_204_NO_CONTENT, s))
             by (unfold TaskChangeStatus_post, bind, get_object; rewrite Hf, Hv, Heq;
                 reflexivity).
           rewrite E; reflexivity.
        -- set (t' := TaskStatusSerializer_update t0 vd).
           set (l := mkLog (task_pk t') u EVENT_STATUS_CHANGED
                       ("Task status changed to " ++ dq ++ str_status_data (status t')
                          ++ dq ++ ".")%string).
           destruct (save_then_log_count pk pk' t' l (HTTP_200_OK t') s) as (s' & E & C);
             [simpl; exact (find_task_pk _ _ _ Hf) | exact (find_task_existsb _ _ _ Hf)
             | simpl; exact (find_task_pk _ _ _ Hf) |].
           assert (E' : TaskChangeStatus_post u pk' d s = (Ok (HTTP_200_OK t'), s'))
             by (unfold TaskChangeStatus_post, bind at 1, get_object; rewrite Hf, Hv, Heq;
                 exact E).
           rewrite E'; exact C.
    + assert (E : TaskChangeStatus_post u pk' d s = (Raise Http404, s))
        by (unfold TaskChangeStatus_post, bind, get_object; rewrite Hf; reflexivity).
      rewrite E; reflexivity.
  - reflexivity.
Qed.

(** C2 (fails at a concrete request sequence): a task is created and then
    a change-status request without a [status] key is sent.  Only one
    lifecycle change happened (the status is still TODO), yet the task
    owns two event log entries, CREATED and STATUS_CHANGED, because the
    view answers 200 and logs (see [serve_log_count] for the general
    bookkeeping: one entry per 201/200 write answer). *)
Theorem C2_absent_status_extra_entry :
  let (resps, s) := run [CreateTask 1 create_payload; ChangeStatus 1 1 None] db0 in
  resps = [HTTP_201_CREATED task1; HTTP_200_OK task1] /\
  find_task 1 s = Some task1 /\ status task1 = STATUS_TODO /\
  map log_event (task_logs 1 s) = [EVENT_CREATED; EVENT_STATUS_CHANGED] /\
  List.length (task_logs 1 s) = 2%nat.
Proof. vm_compute; repeat split; reflexivity. Qed.

(** C4 (fails at a concrete request): task 1 is assigned to [dummyuser].
    An assign with the non-empty identifier "abc", which is no user's key
    (it is not even an integer numeral), does not fail with NotFound: the
    key conversion raises [ValueError], the [except ValueError] meant for
    the empty string turns the target into [None], and the view answers
    200 with the task unassigned and one more ASSIGNED entry.  An assign
    with no [user] key does not unassign either: [pk=None] finds no user
    and the answer is 404, with nothing written. *)
Theorem C4_unknown_identifier_unassigns :
  find_task 1 db_assigned = Some task1_assigned /\
  Py.int_of_string (Py.of_ascii "abc") = None /\
  serve (AssignTask 1 1 None) db_assigned = (HTTP_404_NOT_FOUND, db_assigned) /\
  let (resp, s) := serve (AssignTask 1 1 (Some (PyStr (Py.of_ascii "abc")))) db_assigned in
  resp = HTTP_200_OK task1 /\ find_task 1 s = Some task1 /\
  map log_event (task_logs 1 s) = [EVENT_CREATED; EVENT_ASSIGNED; EVENT_ASSIGNED].
Proof. vm_compute; repeat split; reflexivity. Qed.

(** ** The scenarios of the spec and of the tests, evaluated *)

(** [test_create_tasks]: the task has status TODO, reporter [testuser],
    no assignee, whatever the payload asked for. *)
Example create_scenario :
  fst (serve (CreateTask 1 create_payload) db0) = HTTP_201_CREATED task1.
Proof. vm_compute; reflexivity. Qed.

(** TODO -> IN_PROGRESS -> DONE -> IN_PROGRESS -> TODO -> DONE -> TODO ->
    DONE all answer 200, each adds one STATUS_CHANGED entry; a repeated
    DONE answers 204 and adds none. *)
Example status_sequence_scenario :
  let (resps, s) :=
    run (map (fun z => ChangeStatus 1 1 (Some z))
           [STATUS_IN_PROGRESS; STATUS_DONE; STATUS_IN_PROGRESS; STATUS_TODO;
            STATUS_DONE; STATUS_TODO; STATUS_DONE; STATUS_DONE]) db1 in
  map (fun r => match r with HTTP_200_OK t => status t | HTTP_204_NO_CONTENT => 0 | _ => -1 end)
      resps = [2; 3; 2; 1; 3; 1; 3; 0] /\
  map log_event (task_logs 1 s) =
    EVENT_CREATED :: repeat EVENT_STATUS_CHANGED 7.
Proof. vm_compute; split; reflexivity. Qed.

(** [test_get_user_report]: t1 and t2 reported by others and assigned to
    [testuser], t1 IN_PROGRESS and t2 DONE, t3 reported by [testuser]. *)
Example report_scenario :
  let s := snd (run [CreateTask 2 create_payload; CreateTask 3 create_payload;
                     CreateTask 1 create_payload;
                     AssignTask 2 1 (Some (PyInt 1)); ChangeStatus 2 1 (Some STATUS_IN_PROGRESS);
                     AssignTask 3 2 (Some (PyInt 1)); ChangeStatus 3 2 (Some STATUS_DONE)] db0) in
  fst (serve (Report 1) s) = HTTP_200_REPORT (mkReport 1 2 1 1) /\
  fst (serve (Report 2) db0) = HTTP_200_REPORT (mkReport 0 0 0 0).
Proof. vm_compute; split; reflexivity. Qed.

(** ** What the serializer lets through *)

Lemma run_field_not_invalid {A B} (req partial : bool) (d : option A) (f : A -> option B) :
  is_invalid (run_field req partial d f) = false ->
  (d = None /\ (req && negb partial)%bool = false /\ value_of (run_field req partial d f) = None)
  \/ (exists v b, d = Some v /\ f v = Some b /\ value_of (run_field req partial d f) = Some b).
Proof.
  unfold run_field; destruct d as [v|].
  - destruct (f v) as [b|] eqn:E; simpl; [|discriminate].
    intros _; right; exists v, b; auto.
  - destruct (req && negb partial)%bool; simpl; [discriminate|]; auto.
Qed.

(** [str.strip] removes white space only at the ends, and leaves none
    there: stripping twice is stripping once. *)
Lemma lstrip_suffix (l : Py.pystr) : exists p, l = p ++ Py.lstrip l.
Proof.
  induction l as [|c r IH]; simpl; [exists []; reflexivity|].
  destruct (Py.is_space c).
  - destruct IH as [p Hp]; exists (c :: p); simpl; f_equal; exact Hp.
  - exists []; reflexivity.
Qed.

Lemma lstrip_head (l : Py.pystr) (c : Z) (r : Py.pystr) :
  Py.lstrip l = c :: r -> Py.is_space c = false.
Proof.
  induction l as [|x l IH]; simpl; [discriminate|].
  destruct (Py.is_space x) eqn:E; [exact IH|].
  intros H; injection H as <- _; exact E.
Qed.

Lemma lstrip_id (l : Py.pystr) :
  (forall c r, l = c :: r -> Py.is_space c = false) -> Py.lstrip l = l.
Proof.
  destruct l as [|c r]; simpl; [reflexivity|].
  intros H; rewrite (H c r eq_refl); reflexivity.
Qed.

Lemma strip_idem (v : Py.pystr) : Py.strip (Py.strip v) = Py.strip v.
Proof.
  unfold Py.strip.
  set (a := Py.lstrip v); set (b := Py.lstrip (rev a)).
  assert (Hb : Py.lstrip (rev b) = rev b).
  { apply lstrip_id; intros c r Hr.
    destruct (lstrip_suffix (rev a)) as [p Hp]; fold b in Hp.
    assert (Ha : a = c :: (r ++ rev p)).
    { rewrite <- (rev_involutive a), Hp, rev_app_distr, Hr; reflexivity. }
    exact (lstrip_head v c (r ++ rev p) Ha). }
  rewrite Hb, rev_involutive.
  rewrite (lstrip_id b); [reflexivity|].
  intros c r Hr; exact (lstrip_head (rev a) c r Hr).
Qed.

Lemma existsb_false_not_In (z : Z) (l : list Z) : existsb (Z.eqb z) l = false -> ~ In z l.
Proof.
  intros H Hin; assert (existsb (Z.eqb z) l = true) as H'
    by (apply existsb_exists; exists z; split; [exact Hin | apply Z.eqb_refl]).
  congruence.
Qed.

Lemma existsb_false_Forall (f : Z -> bool) (l : list Z) :
  existsb f l = false -> Forall (fun c => f c = false) l.
Proof.
  induction l as [|c r IH]; simpl; [constructor|].
  intros H; apply orb_false_iff in H as [H1 H2]; constructor; auto.
Qed.

(** What [char_field] lets through: the stripped value, empty only if
    blank is allowed, otherwise within the length and without NUL or
    surrogate. *)
Lemma char_field_some (ab : bool) (m : nat) (v v' : Py.pystr) :
  char_field ab m v = Some v' ->
  v' = Py.strip v /\
  ((v' = [] /\ ab = true) \/
   (v' <> [] /\ (List.length v' <= m)%nat /\ ~ In 0 v' /\
    Forall (fun c => is_surrogate c = false) v')).
Proof.
  unfold char_field; destruct (Py.strip v) as [|c r] eqn:E.
  - destruct ab; intros H; inversion H; subst; auto.
  - destruct (Nat.leb _ _ && _ && _)%bool eqn:Hc; intros H; inversion H; subst.
    apply andb_prop in Hc as [Hc Hs]; apply andb_prop in Hc as [Hl Hn].
    apply negb_true_iff in Hs, Hn.
    split; [reflexivity|]; right; split; [discriminate|].
    split; [apply Nat.leb_le; exact Hl|].
    split; [apply existsb_false_not_In; exact Hn|].
    apply existsb_false_Forall; exact Hs.
Qed.

Lemma char_field_length (ab : bool) (m : nat) (v v' : Py.pystr) :
  char_field ab m v = Some v' -> (List.length v' <= m)%nat.
Proof.
  intros H; destruct (char_field_some _ _ _ _ H) as [_ [[-> _]|(_ & Hl & _)]];
    [simpl; lia | exact Hl].
Qed.

Lemma char_field_strip (ab : bool) (m : nat) (v v' : Py.pystr) :
  char_field ab m v = Some v' -> v' = Py.strip v.
Proof. intros H; exact (proj1 (char_field_some _ _ _ _ H)). Qed.

Lemma char_field_name (v v' : Py.pystr) : char_field false 300 v = Some v' -> name_ok v'.
Proof.
  intros H; destruct (char_field_some _ _ _ _ H) as [Hs [[_ Hab]|(Hne & Hl & Hn & Hsur)]];
    [discriminate|].
  split; [rewrite Hs; apply strip_idem|]; auto.
Qed.

Lemma existsb_In (z : Z) (l : list Z) : existsb (Z.eqb z) l = true -> In z l.
Proof.
  intros H; apply existsb_exists in H as (x & Hx & E); apply Z.eqb_eq in E; subst; exact Hx.
Qed.

Lemma choice_field_In (l : list Z) (v v' : Z) : choice_field l v = Some v' -> v' = v /\ In v l.
Proof.
  unfold choice_field; destruct (existsb (Z.eqb v) l) eqn:E; intros H; inversion H; subst.
  split; [reflexivity | exact (existsb_In _ _ E)].
Qed.

Lemma category_field_In (s : store) (v v' : Z) :
  category_field s v = Some v' -> v' = v /\ In v (categories s).
Proof. exact (choice_field_In (categories s) v v'). Qed.

Lemma value_of_run_field {A B} (req partial : bool) (d : option A) (f : A -> option B) (b : B) :
  value_of (run_field req partial d f) = Some b -> exists v, d = Some v /\ f v = Some b.
Proof.
  unfold run_field; destruct d as [v|].
  - destruct (f v) as [b'|] eqn:E; simpl; intros H; inversion H; subst; eauto.
  - destruct (req && negb partial)%bool; discriminate.
Qed.

(** A payload that validates gives values that satisfy the field
    constraints; without [partial], name and category are present. *)
Lemma TaskSerializer_is_valid_ok (partial : bool) (p : payload) (s : store) (vd : validated) :
  TaskSerializer_is_valid partial p s = inr vd ->
  (forall n, vd_name vd = Some n -> exists v, p_name p = Some v /\ n = Py.strip v /\ name_ok n) /\
  (forall d, vd_description vd = Some d ->
     exists v, p_description p = Some v /\ d = Py.strip v /\ (List.length d <= 2000)%nat) /\
  (forall c, vd_category vd = Some c -> p_category p = Some c /\ In c (categories s)) /\
  (forall q, vd_priority vd = Some q -> p_priority p = Some q /\ In q PRIORITY_CHOICES) /\
  (p_description p = None -> vd_description vd = None) /\
  (p_priority p = None -> vd_priority vd = None) /\
  (partial = false -> vd_name vd <> None /\ vd_category vd <> None).
Proof.
  unfold TaskSerializer_is_valid.
  destruct (is_invalid (run_field true partial (p_name p) (char_field false 300))) eqn:E1;
    [discriminate|].
  destruct (is_invalid (run_field false partial (p_description p) (char_field true 2000))) eqn:E2;
    [discriminate|].
  destruct (is_invalid (run_field true partial (p_category p) (category_field s))) eqn:E3;
    [discriminate|].
  destruct (is_invalid (run_field false partial (p_priority p) (choice_field PRIORITY_CHOICES)))
    eqn:E4; [discriminate|].
  simpl; intros H; injection H as <-; simpl.
  split; [|split; [|split; [|split; [|split; [|split]]]]].
  - intros n Hn; apply value_of_run_field in Hn as (v & Dv & Fv).
    exists v; split; [exact Dv|]; split; [exact (char_field_strip _ _ _ _ Fv)|].
    exact (char_field_name _ _ Fv).
  - intros d Hd; apply value_of_run_field in Hd as (v & Dv & Fv).
    exists v; split; [exact Dv|]; split; [exact (char_field_strip _ _ _ _ Fv)|].
    exact (char_field_length _ _ _ _ Fv).
  - intros c Hc; apply value_of_run_field in Hc as (v & Dv & Fv).
    apply category_field_In in Fv as [-> Hin]; auto.
  - intros q Hq; apply value_of_run_field in Hq as (v & Dv & Fv).
    apply choice_field_In in Fv as [-> Hin]; auto.
  - intros D; rewrite D; reflexivity.
  - intros D; rewrite D; reflexivity.
  - intros ->; split.
    + apply run_field_not_invalid in E1 as [(_ & R & _)|(v & b & _ & _ & ->)];
        [discriminate R | discriminate].
    + apply run_field_not_invalid in E3 as [(_ & R & _)|(v & b & _ & _ & ->)];
        [discriminate R | discriminate].
Qed.

(** A value present in the payload is kept by a validation that passes. *)
Lemma TaskSerializer_is_valid_present (partial : bool) (p : payload) (s : store)
    (vd : validated) :
  TaskSerializer_is_valid partial p s = inr vd ->
  (p_description p <> None -> vd_description vd <> None) /\
  (p_priority p <> None -> vd_priority vd <> None).
Proof.
  unfold TaskSerializer_is_valid.
  destruct (is_invalid (run_field true partial (p_name p) (char_field false 300)));
    [discriminate|].
  destruct (is_invalid (run_field false partial (p_description p) (char_field true 2000))) eqn:E2;
    [discriminate|].
  destruct (is_invalid (run_field true partial (p_category p) (category_field s)));
    [discriminate|].
  destruct (is_invalid (run_field false partial (p_priority p) (choice_field PRIORITY_CHOICES)))
    eqn:E4; [discriminate|].
  simpl; intros H; injection H as <-; simpl; split; intros Hp.
  - apply run_field_not_invalid in E2 as [(D & _)|(v & b & _ & _ & ->)];
      [contradiction | discriminate].
  - apply run_field_not_invalid in E4 as [(D & _)|(v & b & _ & _ & ->)];
      [contradiction | discriminate].
Qed.

(** ** Every request ends in one of four ways *)

(** The tail of every writing view, on a task that is in the table. *)
Lemma save_then_log_store (pk : Z) (t' : Task) (l : TaskEventLog) (resp : response)
    (s : store) :
  task_pk t' = pk -> existsb (fun x => task_pk x =? pk) (tasks s) = true ->
  (_ <- save_task t';; _ <- log_save l;; ret resp) s =
  (Ok resp, mkStore (users s) (categories s)
              (map (fun x => if task_pk x =? pk then t' else x) (tasks s))
              (logs s ++ [l]) (next_pk s)).
Proof.
  intros Hpk Hex; unfold bind at 1; rewrite (save_task_existing pk t' s Hpk Hex).
  unfold bind, log_save, modify, ret; reflexivity.
Qed.

Lemma outcome_write_at (s : store) (pk : Z) (t0 t' : Task) (l : TaskEventLog) :
  find_task pk s = Some t0 -> task_pk t' = pk -> reporter t' = reporter t0 ->
  field_step s t0 t' -> log_task l = pk -> log_event l <> EVENT_CREATED ->
  outcome s (HTTP_200_OK t',
             mkStore (users s) (categories s)
               (map (fun x => if task_pk x =? pk then t' else x) (tasks s))
               (logs s ++ [l]) (next_pk s)).
Proof.
  intros Hf; pose proof (find_task_pk _ _ _ Hf) as Hpk; subst pk.
  intros; apply outcome_write; assumption.
Qed.

Lemma field_step_same (s : store) (t0 t' : Task) :
  name t' = name t0 -> description t' = description t0 -> category t' = category t0 ->
  priority t' = priority t0 -> status t' = status t0 -> field_step s t0 t'.
Proof. intros; repeat split; left; assumption. Qed.

Lemma TaskStatusSerializer_is_valid_In (d : option Z) (z : Z) :
  TaskStatusSerializer_is_valid d = inr (Some z) -> In z STATUS_CHOICES.
Proof.
  unfold TaskStatusSerializer_is_valid, run_field; destruct d as [v|]; simpl; [|discriminate].
  destruct (choice_field STATUS_CHOICES v) as [b|] eqn:E; simpl; intros H; inversion H; subst.
  destruct (choice_field_In _ _ _ E) as [-> Hin]; exact Hin.
Qed.

Lemma serve_outcome (r : request) (s : store) : outcome s (serve r s).
Proof.
  destruct r as [u p|u pk p|u pk|u pk v|u pk d|u]; unfold serve; simpl.
  - unfold TaskListCreate_post, bind, read, insert_task, log_save, modify, ret; simpl.
    destruct (TaskSerializer_is_valid false p s) as [e|vd] eqn:Hv; simpl;
      [apply outcome_quiet; reflexivity|].
    apply outcome_create; [reflexivity|].
    apply TaskSerializer_is_valid_ok in Hv as (Hn & Hd & Hc & Hq & _ & _ & Hreq).
    destruct (Hreq eq_refl) as [Nn Nc]; clear Hreq.
    unfold fields_ok, Task_new; simpl.
    destruct (vd_name vd) as [n|]; [|contradiction].
    destruct (Hn n eq_refl) as (_ & _ & _ & Hn'); clear Hn.
    destruct (vd_category vd) as [c|]; [|contradiction].
    destruct (Hc c eq_refl) as [_ Hc']; clear Hc.
    split; [exact Hn'|]; split.
    + destruct (vd_description vd) as [dd|]; [|simpl; lia].
      destruct (Hd dd eq_refl) as (_ & _ & _ & H); exact H.
    + split; [exact Hc'|]; split; [|simpl; tauto].
      destruct (vd_priority vd) as [q|]; [exact (proj2 (Hq q eq_refl))|simpl; tauto].
  - destruct (find_task pk s) as [t0|] eqn:Hf.
    + pose proof (find_task_pk _ _ _ Hf) as Hpk.
      destruct (TaskSerializer_is_valid true p s) as [e|vd] eqn:Hv.
      * assert (E : TaskDetail_put u pk p s = (Ok (HTTP_400_BAD_REQUEST e), s))
          by (unfold TaskDetail_put, bind, get_object, read; rewrite Hf; simpl; rewrite Hv;
              reflexivity).
        rewrite E; apply outcome_quiet; reflexivity.
      * set (t' := TaskSerializer_update t0 vd).
        set (l := mkLog (task_pk t') u EVENT_EDITED "Task edited.").
        assert (E : TaskDetail_put u pk p s =
                    (Ok (HTTP_200_OK t'), mkStore (users s) (categories s)
                       (map (fun x => if task_pk x =? pk then t' else x) (tasks s))
                       (logs s ++ [l]) (next_pk s)))
          by (unfold TaskDetail_put, bind at 1, get_object; rewrite Hf;
              unfold bind at 1, read; cbn -[save_task log_save]; rewrite Hv;
              apply save_then_log_store; [exact Hpk | exact (find_task_existsb _ _ _ Hf)]).
        rewrite E; apply (outcome_write_at s pk t0); [exact Hf | exact Hpk | reflexivity | |
                                                       exact Hpk | discriminate].
        apply TaskSerializer_is_valid_ok in Hv as (Hn & Hd & Hc & Hq & _).
        unfold field_step, t', TaskSerializer_update; simpl.
        split; [destruct (vd_name vd) as [n|];
                [right; destruct (Hn n eq_refl) as (_ & _ & _ & H); exact H
                |left; reflexivity]|].
        split; [destruct (vd_description vd) as [dd|];
                [right; destruct (Hd dd eq_refl) as (_ & _ & _ & H); exact H
                |left; reflexivity]|].
        split; [destruct (vd_category vd) as [c|];
                [right; exact (proj2 (Hc c eq_refl))|left; reflexivity]|].
        split; [destruct (vd_priority vd) as [q|];
                [right; exact (proj2 (Hq q eq_refl))|left; reflexivity]|].
        left; reflexivity.
    + assert (E : TaskDetail_put u pk p s = (Raise Http404, s))
        by (unfold TaskDetail_put, bind, get_object; rewrite Hf; reflexivity).
      rewrite E; apply outcome_quiet; reflexivity.
  - destruct (find_task pk s) as [t0|] eqn:Hf.
    + assert (E : TaskDetail_delete u pk s =
                  (Ok (HTTP_200_DELETED pk),
                   mkStore (users s) (categories s)
                     (filter (fun x => negb (task_pk x =? pk)) (tasks s))
                     (filter (fun l => negb (log_task l =? pk)) (logs s)) (next_pk s)))
        by (unfold TaskDetail_delete, bind, get_object, delete_task, modify, ret; rewrite Hf;
            rewrite (find_task_pk _ _ _ Hf); reflexivity).
      rewrite E; apply outcome_delete; rewrite Hf; discriminate.
    + assert (E : TaskDetail_delete u pk s = (Raise Http404, s))
        by (unfold TaskDetail_delete, bind, get_object; rewrite Hf; reflexivity).
      rewrite E; apply outcome_quiet; reflexivity.
  - destruct (find_task pk s) as [t0|] eqn:Hf.
    + pose proof (find_task_pk _ _ _ Hf) as Hpk.
      destruct (resolve_user_raise v s) as [[r Hr]|[e [_ Hr]]].
      * destruct (opt_Z_eqb (assignee t0) (option_map user_pk r)) eqn:Heq.
        -- assert (E : TaskAssign_post u pk v s = (Ok HTTP_204_NO_CONTENT, s))
             by (unfold TaskAssign_post, bind at 1, get_object; rewrite Hf;
                 unfold bind at 1; rewrite Hr, Heq; reflexivity).
           rewrite E; apply outcome_quiet; reflexivity.
        -- set (t' := mkTask (task_pk t0) (name t0) (description t0) (category t0)
                        (priority t0) (status t0) (reporter t0) (option_map user_pk r)).
           set (l := mkLog (task_pk t') u EVENT_ASSIGNED
                       ("Task assigned to " ++ str_user r ++ ".")%string).
           assert (E : TaskAssign_post u pk v s =
                       (Ok (HTTP_200_OK t'), mkStore (users s) (categories s)
                          (map (fun x => if task_pk x =? pk then t' else x) (tasks s))
                          (logs s ++ [l]) (next_pk s)))
             by (unfold TaskAssign_post, bind at 1, get_object; rewrite Hf;
                 unfold bind at 1; rewrite Hr, Heq;
                 apply save_then_log_store; [exact Hpk | exact (find_task_existsb _ _ _ Hf)]).
           rewrite E; apply (outcome_write_at s pk t0); try reflexivity; try exact Hf;
             try exact Hpk; try discriminate.
           apply field_step_same; reflexivity.
      * assert (E : TaskAssign_post u pk v s = (Raise e, s))
          by (apply (TaskAssign_post_raise _ _ _ _ t0 e Hf Hr)).
        rewrite E; destruct e; apply outcome_quiet; reflexivity.
    + assert (E : TaskAssign_post u pk v s = (Raise Http404, s))
        by (unfold TaskAssign_post, bind, get_object; rewrite Hf; reflexivity).
      rewrite E; apply outcome_quiet; reflexivity.
  - destruct (find_task pk s) as [t0|] eqn:Hf.
    + pose proof (find_task_pk _ _ _ Hf) as Hpk.
      destruct (TaskStatusSerializer_is_valid d) as [e|vd] eqn:Hv.
      * assert (E : TaskChangeStatus_post u pk d s = (Ok (HTTP_400_BAD_REQUEST e), s))
          by (unfold TaskChangeStatus_post, bind, get_object; rewrite Hf, Hv; reflexivity).
        rewrite E; apply outcome_quiet; reflexivity.
      * destruct (py_eq_status vd (status t0)) eqn:Heq.
        -- assert (E : TaskChangeStatus_post u pk d s = (Ok HTTP_204_NO_CONTENT, s))
             by (unfold TaskChangeStatus_post, bind, get_object; rewrite Hf, Hv, Heq;
                 reflexivity).
           rewrite E; apply outcome_quiet; reflexivity.
        -- set (t' := TaskStatusSerializer_update t0 vd).
           set (l := mkLog (task_pk t') u EVENT_STATUS_CHANGED
                       ("Task status changed to " ++ dq ++ str_status_data (status t')
                          ++ dq ++ ".")%string).
           assert (E : TaskChangeStatus_post u pk d s =
                       (Ok (HTTP_200_OK t'), mkStore (users s) (categories s)
                          (map (fun x => if task_pk x =? pk then t' else x) (tasks s))
                          (logs s ++ [l]) (next_pk s)))
             by (unfold TaskChangeStatus_post, bind at 1, get_object; rewrite Hf, Hv, Heq;
                 apply save_then_log_store; [exact Hpk | exact (find_task_existsb _ _ _ Hf)]).
           rewrite E; apply (outcome_write_at s pk t0); try reflexivity; try exact Hf;
             try exact Hpk; try discriminate.
           unfold field_step, t', TaskStatusSerializer_update; simpl.
           repeat (split; [left; reflexivity|]).
           destruct vd as [z|]; [right; exact (TaskStatusSerializer_is_valid_In d z Hv)
                                |left; reflexivity].
    + assert (E : TaskChangeStatus_post u pk d s = (Raise Http404, s))
        by (unfold TaskChangeStatus_post, bind, get_object; rewrite Hf; reflexivity).
      rewrite E; apply outcome_quiet; reflexivity.
  - apply outcome_quiet; reflexivity.
Qed.

(** ** The invariant of reachable databases *)

Lemma map_pk_replace (pk : Z) (t : Task) (l : list Task) :
  task_pk t = pk ->
  map task_pk (map (fun x => if task_pk x =? pk then t else x) l) = map task_pk l.
Proof.
  intros Ht; induction l as [|x l IH]; simpl; [reflexivity|].
  rewrite IH; destruct (task_pk x =? pk) eqn:E; [|reflexivity].
  apply Z.eqb_eq in E; rewrite Ht, E; reflexivity.
Qed.

Lemma In_replace (pk : Z) (t y : Task) (l : list Task) :
  In y (map (fun x => if task_pk x =? pk then t else x) l) ->
  y = t \/ (In y l /\ (task_pk y =? pk) = false).
Proof.
  intros H; apply in_map_iff in H as (x & Hx & Hin).
  destruct (task_pk x =? pk) eqn:E; subst; [left; reflexivity | right; auto].
Qed.

Lemma NoDup_map_filter {A B} (f : A -> B) (g : A -> bool) (l : list A) :
  NoDup (map f l) -> NoDup (map f (filter g l)).
Proof.
  induction l as [|x l IH]; simpl; intros H; [constructor|].
  inversion H as [|a b Hnot Hl]; subst.
  destruct (g x); simpl; [constructor|]; auto.
  intros Hin; apply Hnot; apply in_map_iff in Hin as (y & Hy & Hyin).
  apply filter_In in Hyin as [Hyin _]; rewrite <- Hy; apply in_map; exact Hyin.
Qed.

Lemma task_logs_snoc (q : Z) (us : list User) (cs : list Z) (ts : list Task)
    (ls : list TaskEventLog) (l : TaskEventLog) (n : Z) :
  task_logs q (mkStore us cs ts (ls ++ [l]) n) =
  filter (fun l => log_task l =? q) ls ++ (if log_task l =? q then [l] else []).
Proof.
  unfold task_logs; simpl; rewrite filter_app; simpl.
  destruct (log_task l =? q); reflexivity.
Qed.

(** No entry of the log names a key that is not yet given out. *)
Lemma no_logs_fresh (ls : list TaskEventLog) (ts : list Task) (n : Z) :
  Forall (fun l => In (log_task l) (map task_pk ts)) ls ->
  Forall (fun t => task_pk t < n) ts ->
  filter (fun l => log_task l =? n) ls = [].
Proof.
  intros Ho Hk; induction Ho as [|l ls Hl _ IH]; simpl; [reflexivity|].
  destruct (log_task l =? n) eqn:E; [|exact IH].
  apply Z.eqb_eq in E; apply in_map_iff in Hl as (t & Ht & Hin).
  rewrite Forall_forall in Hk; specialize (Hk t Hin); lia.
Qed.

Lemma field_step_ok (s : store) (t0 t' : Task) :
  fields_ok s t0 -> field_step s t0 t' -> fields_ok s t'.
Proof.
  intros (A & B & C & D & E) ([F|F] & [G|G] & [H|H] & [I|I] & [J|J]);
    repeat split;
    repeat match goal with
    | Heq : ?f t' = ?f t0 |- _ => rewrite Heq; clear Heq
    end;
    first [apply A | apply B | apply C | apply D | apply E
          | apply F | apply G | apply H | apply I | apply J].
Qed.

Lemma outcome_wf (s : store) (p : response * store) : wf s -> outcome s p -> wf (snd p).
Proof.
  intros [Wk Wu Wo Wc Wf] O.
  rewrite Forall_forall in Wk, Wf.
  destruct O as [resp Hq|t0 t' l Hf Hpk Hrep Hstep Hl He|t Hpk Hfields|pk Hf]; simpl.
  - constructor; [rewrite Forall_forall; exact Wk | exact Wu | exact Wo | exact Wc
                 | rewrite Forall_forall; exact Wf].
  - assert (Hin0 : In t0 (tasks s)) by (unfold find_task in Hf; apply find_some in Hf; tauto).
    constructor; simpl.
    + rewrite Forall_forall; intros y Hy.
      apply In_replace in Hy as [->|[Hy _]]; [rewrite Hpk; exact (Wk t0 Hin0) | exact (Wk y Hy)].
    + rewrite map_pk_replace by exact Hpk; exact Wu.
    + rewrite map_pk_replace by exact Hpk.
      apply Forall_app; split; [exact Wo|].
      constructor; [rewrite Hl; apply in_map; exact Hin0 | constructor].
    + intros y Hy; rewrite task_logs_snoc.
      apply In_replace in Hy as [->|[Hy _]].
      * destruct (Wc t0 Hin0) as (rest & Hr & Hc); unfold task_logs in Hr; rewrite Hpk, Hr.
        assert (Ec : created_entry t' = created_entry t0)
          by (unfold created_entry; rewrite Hpk, Hrep; reflexivity).
        rewrite Ec; eexists; split; [reflexivity|].
        apply Forall_app; split; [exact Hc|].
        destruct (log_task l =? task_pk t0); repeat constructor; exact He.
      * destruct (Wc y Hy) as (rest & Hr & Hc); unfold task_logs in Hr; rewrite Hr.
        eexists; split; [reflexivity|].
        apply Forall_app; split; [exact Hc|].
        destruct (log_task l =? task_pk y); repeat constructor; exact He.
    + rewrite Forall_forall; intros y Hy.
      apply In_replace in Hy as [->|[Hy _]];
        [exact (field_step_ok s t0 t' (Wf t0 Hin0) Hstep) | exact (Wf y Hy)].
  - constructor; simpl.
    + rewrite Forall_forall; intros y Hy; apply in_app_or in Hy as [Hy|[<-|[]]];
        [specialize (Wk y Hy); lia | lia].
    + rewrite map_app; apply NoDup_app; [exact Wu | constructor; [intros []|constructor] |].
      intros a Ha [Hb|[]]; apply in_map_iff in Ha as (x & Hx & Hxin).
      specialize (Wk x Hxin); lia.
    + rewrite map_app; apply Forall_app; split.
      * revert Wo; apply Forall_impl; intros l Hl; apply in_or_app; left; exact Hl.
      * constructor; [apply in_or_app; right; left; reflexivity | constructor].
    + intros y Hy; rewrite task_logs_snoc.
      apply in_app_or in Hy as [Hy|[<-|[]]].
      * destruct (Wc y Hy) as (rest & Hr & Hc); unfold task_logs in Hr; rewrite Hr.
        assert (Ey : (log_task (created_entry t) =? task_pk y) = false)
          by (apply Z.eqb_neq; simpl; specialize (Wk y Hy); lia).
        rewrite Ey, app_nil_r; exists rest; split; [reflexivity | exact Hc].
      * rewrite Hpk, (no_logs_fresh (logs s) (tasks s) (next_pk s) Wo);
          [|rewrite Forall_forall; exact Wk].
        unfold created_entry at 1; simpl; rewrite Hpk, Z.eqb_refl.
        exists []; split; [reflexivity | constructor].
    + apply Forall_app; split; [rewrite Forall_forall; exact Wf|].
      constructor; [exact Hfields | constructor].
  - constructor; simpl.
    + apply Forall_filter_sub; rewrite Forall_forall; exact Wk.
    + apply NoDup_map_filter; exact Wu.
    + rewrite Forall_forall in Wo |- *; intros l Hl.
      apply filter_In in Hl as [Hl Hneq].
      specialize (Wo l Hl); apply in_map_iff in Wo as (x & Hx & Hxin).
      rewrite <- Hx; apply in_map, filter_In; split; [exact Hxin|].
      rewrite Hx; exact Hneq.
    + intros y Hy; apply filter_In in Hy as [Hy Hneq].
      destruct (Wc y Hy) as (rest & Hr & Hc); exists rest; split; [|exact Hc].
      transitivity (task_logs (task_pk y)
                      (set_logs s (filter (fun l => negb (log_task l =? pk)) (logs s))));
        [reflexivity|].
      rewrite delete_task_logs, Z.eqb_sym.
      destruct (task_pk y =? pk); [discriminate Hneq | exact Hr].
    + apply Forall_filter_sub; rewrite Forall_forall; exact Wf.
Qed.

Lemma wf_init (us : list User) (cats : list Z) : wf (init us cats).
Proof. constructor; simpl; try constructor. intros t []. Qed.

Lemma reachable_wf (s : store) : reachable s -> wf s.
Proof.
  induction 1 as [us cats|s r _ IH]; [apply wf_init|].
  exact (outcome_wf s (serve r s) IH (serve_outcome r s)).
Qed.

Lemma find_snoc_fresh (pk : Z) (l : list Task) (t : Task) :
  Forall (fun x => task_pk x < pk) l -> task_pk t = pk ->
  find (fun x => task_pk x =? pk) (l ++ [t]) = Some t.
Proof.
  intros Hl Ht; induction Hl as [|x l Hx _ IH]; simpl.
  - rewrite Ht, Z.eqb_refl; reflexivity.
  - destruct (task_pk x =? pk) eqn:E; [apply Z.eqb_eq in E; lia | exact IH].
Qed.

Lemma outcome_ok_200 (s s' : store) (t' : Task) :
  outcome s (HTTP_200_OK t', s') ->
  exists t0 l, find_task (task_pk t0) s = Some t0 /\ task_pk t' = task_pk t0 /\
    log_task l = task_pk t0 /\
    s' = mkStore (users s) (categories s)
           (map (fun x => if task_pk x =? task_pk t0 then t' else x) (tasks s))
           (logs s ++ [l]) (next_pk s).
Proof.
  intros O; inversion O as [resp Hq|t0 t'' l Hf Hpk Hrep Hstep Hl He| |]; subst.
  - discriminate Hq.
  - exists t0, l; auto.
Qed.

Lemma outcome_ok_201 (s s' : store) (t : Task) :
  outcome s (HTTP_201_CREATED t, s') ->
  task_pk t = next_pk s /\ fields_ok s t /\
  s' = mkStore (users s) (categories s) (tasks s ++ [t])
         (logs s ++ [created_entry t]) (next_pk s + 1).
Proof.
  intros O; inversion O as [resp Hq| |t' Hpk Hf|]; subst.
  - discriminate Hq.
  - auto.
Qed.

(* ------------------------------------------------------------------ *)
(** ** Further properties of the views *)







(** A 204, 400, 404, 500 or report answer leaves the database as it was. *)
Theorem serve_quiet_no_write (r : request) (s : store)
  (Hq : quiet (fst (serve r s)) = true) :
  snd (serve r s) = s.
Proof.
  revert Hq; destruct (serve_outcome r s); simpl; intros Hq;
    [reflexivity | discriminate Hq ..].
Qed.

(** No view writes a user or a category, and the next primary key moves
    by one exactly when a task is created. *)
Theorem serve_fixed_tables_and_keys (r : request) (s : store) :
  users (snd (serve r s)) = users s /\
  categories (snd (serve r s)) = categories s /\
  next_pk (snd (serve r s)) =
    match fst (serve r s) with HTTP_201_CREATED _ => next_pk s + 1 | _ => next_pk s end.
Proof.
  destruct (serve_outcome r s) as [resp Hq| | |]; simpl; auto.
  destruct resp; auto; discriminate Hq.
Qed.

(** In every reachable database the task keys are unique and below the
    next key to be given out. *)
Theorem reachable_keys (s : store) (Hr : reachable s) :
  NoDup (map task_pk (tasks s)) /\ Forall (fun t => task_pk t < next_pk s) (tasks s).
Proof. destruct (reachable_wf s Hr) as [Wk Wu _ _ _]; auto. Qed.

(** In every reachable database each event log entry belongs to a task
    that is in the table: the CASCADE leaves no orphan entry. *)
Theorem reachable_no_orphan_logs (s : store) (Hr : reachable s) :
  forall l, In l (logs s) -> find_task (log_task l) s <> None.
Proof.
  destruct (reachable_wf s Hr) as [_ _ Wo _ _]; intros l Hl Hf.
  rewrite Forall_forall in Wo; apply Wo, in_map_iff in Hl as (t & Ht & Hin).
  unfold find_task in Hf; apply (find_none _ _ Hf) in Hin.
  rewrite Ht, Z.eqb_refl in Hin; discriminate Hin.
Qed.

(** A stripped name that is not empty starts with a character that is
    not white space: it is not blank. *)
Lemma lstrip_length (l : Py.pystr) : (List.length (Py.lstrip l) <= List.length l)%nat.
Proof.
  destruct (lstrip_suffix l) as [p Hp].
  rewrite Hp at 2; rewrite length_app; lia.
Qed.

Lemma stripped_not_blank (n : Py.pystr) :
  Py.strip n = n -> n <> [] -> exists c, In c n /\ Py.is_space c = false.
Proof.
  intros Hs Hne; destruct n as [|c r]; [contradiction|].
  exists c; split; [left; reflexivity|].
  destruct (Py.is_space c) eqn:E; [exfalso|reflexivity].
  assert (L : (List.length (Py.strip (c :: r)) <= List.length r)%nat).
  { unfold Py.strip; simpl; rewrite E, length_rev.
    etransitivity; [apply lstrip_length|]; rewrite length_rev; apply lstrip_length. }
  rewrite Hs in L; simpl in L; lia.
Qed.

(** In every reachable database each stored task satisfies the
    constraints of [TaskSerializer] and of the model: a name that is
    stripped of white space and not blank, of 1 to 300 characters (code
    points), with no NUL and no surrogate; a description of at most 2000
    characters; an existing category; a priority and a status among the
    choices. *)
Theorem reachable_fields_ok (s : store) (t : Task) (Hr : reachable s)
  (Hin : In t (tasks s)) :
  Py.strip (name t) = name t /\ (exists c, In c (name t) /\ Py.is_space c = false) /\
  (1 <= List.length (name t) <= 300)%nat /\
  ~ In 0 (name t) /\ Forall (fun c => is_surrogate c = false) (name t) /\
  (List.length (description t) <= 2000)%nat /\
  In (category t) (categories s) /\ In (priority t) PRIORITY_CHOICES /\
  In (status t) STATUS_CHOICES.
Proof.
  destruct (reachable_wf s Hr) as [_ _ _ _ Wf]; rewrite Forall_forall in Wf.
  destruct (Wf t Hin) as ((Hs & Hne & Hl & Hn & Hsur) & C & D & E & F).
  split; [exact Hs|]; split; [exact (stripped_not_blank _ Hs Hne)|].
  split; [destruct (name t); [contradiction | simpl in *; lia]|].
  repeat split; assumption.
Qed.

(** [TaskEventLogList.get] answers 404 on an absent task; on a task of a
    reachable database it lists the task's entries, the first being the
    CREATED entry written by its reporter and no other one being a
    CREATED entry, and writes nothing. *)
Theorem TaskEventLogList_get_created_first (s : store) (pk : Z) (Hr : reachable s) :
  match find_task pk s with
  | None => TaskEventLogList_get pk s = (Raise Http404, s)
  | Some t =>
      exists rest,
        TaskEventLogList_get pk s = (Ok (created_entry t :: rest), s) /\
        log_event (created_entry t) = EVENT_CREATED /\
        log_user (created_entry t) = reporter t /\
        Forall (fun l => log_task l = pk /\ log_event l <> EVENT_CREATED) rest
  end.
Proof.
  destruct (find_task pk s) as [t|] eqn:Hf;
    unfold TaskEventLogList_get, bind, get_object, read, ret; rewrite Hf; [|reflexivity].
  destruct (reachable_wf s Hr) as [_ _ _ Wc _].
  assert (Hin : In t (tasks s)) by (unfold find_task in Hf; apply find_some in Hf; tauto).
  destruct (Wc t Hin) as (rest & Hrest & Hc); unfold task_logs in Hrest.
  exists rest; split; [rewrite Hrest; reflexivity|].
  split; [reflexivity|]; split; [reflexivity|].
  rewrite (find_task_pk _ _ _ Hf) in Hrest.
  assert (Hall : Forall (fun l => log_task l = pk)
                   (filter (fun l => log_task l =? pk) (logs s))).
  { rewrite Forall_forall; intros l Hl; apply filter_In in Hl as [_ Hl].
    apply Z.eqb_eq; exact Hl. }
  rewrite Hrest in Hall; inversion Hall as [|x xs _ Hall']; subst.
  apply Forall_and; assumption.
Qed.

(** In a reachable database, the task a create answers with is the one
    [TaskDetail.get] returns afterwards, and its event log is exactly its
    CREATED entry. *)
Theorem create_then_read (s s' : store) (u : Z) (p : payload) (t : Task)
  (Hr : reachable s)
  (Hc : serve (CreateTask u p) s = (HTTP_201_CREATED t, s')) :
  TaskDetail_get (task_pk t) s' = (Ok t, s') /\
  TaskEventLogList_get (task_pk t) s' = (Ok [created_entry t], s').
Proof.
  pose proof (serve_outcome (CreateTask u p) s) as O; rewrite Hc in O.
  apply outcome_ok_201 in O as (Hpk & _ & ->).
  destruct (reachable_wf s Hr) as [Wk _ Wo _ _].
  assert (Hf : find_task (task_pk t)
                 (mkStore (users s) (categories s) (tasks s ++ [t])
                    (logs s ++ [created_entry t]) (next_pk s + 1)) = Some t)
    by (unfold find_task; simpl; rewrite Hpk; apply find_snoc_fresh; assumption).
  unfold TaskDetail_get, TaskEventLogList_get, bind, get_object, read, ret; rewrite Hf.
  split; [reflexivity|]; cbn -[created_entry filter].
  rewrite filter_app, Hpk, (no_logs_fresh _ _ _ Wo Wk).
  assert (El : (log_task (created_entry t) =? next_pk s) = true)
    by (apply Z.eqb_eq; exact Hpk).
  cbn -[created_entry]; rewrite El; reflexivity.
Qed.

(** After a write answered 200 (update, assign or status change), the
    task of the answer is what [TaskDetail.get] returns on its key, and
    the task's event log list is the one before with one more entry at
    its end. *)
Theorem write_then_read (r : request) (s : store) (t' : Task)
  (H200 : fst (serve r s) = HTTP_200_OK t') :
  TaskDetail_get (task_pk t') (snd (serve r s)) = (Ok t', snd (serve r s)) /\
  exists l,
    TaskEventLogList_get (task_pk t') (snd (serve r s)) =
    (Ok (task_logs (task_pk t') s ++ [l]), snd (serve r s)).
Proof.
  pose proof (serve_outcome r s) as O.
  destruct (serve r s) as [resp s'] eqn:E; simpl in H200 |- *; subst resp.
  apply outcome_ok_200 in O as (t0 & l & Hf & Hpk & Hl & ->).
  assert (Hf' : find_task (task_pk t')
                  (mkStore (users s) (categories s)
                     (map (fun x => if task_pk x =? task_pk t0 then t' else x) (tasks s))
                     (logs s ++ [l]) (next_pk s)) = Some t')
    by (unfold find_task; simpl; rewrite Hpk;
        apply find_replace; [exact Hpk | exact (find_task_existsb _ _ _ Hf)]).
  unfold TaskDetail_get, TaskEventLogList_get, bind, get_object, read, ret; rewrite Hf'.
  split; [reflexivity|]; exists l; simpl.
  rewrite filter_app; simpl; rewrite Hl, Hpk, Z.eqb_refl; reflexivity.
Qed.

(** After a delete answered 200, the read views and every write request
    on that key answer 404 and change nothing. *)
Theorem delete_then_404 (s : store) (u pk : Z)
  (Hd : fst (serve (DeleteTask u pk) s) = HTTP_200_DELETED pk) :
  let s' := snd (serve (DeleteTask u pk) s) in
  TaskDetail_get pk s' = (Raise Http404, s') /\
  TaskEventLogList_get pk s' = (Raise Http404, s') /\
  forall u' p v d,
    serve (UpdateTask u' pk p) s' = (HTTP_404_NOT_FOUND, s') /\
    serve (DeleteTask u' pk) s' = (HTTP_404_NOT_FOUND, s') /\
    serve (AssignTask u' pk v) s' = (HTTP_404_NOT_FOUND, s') /\
    serve (ChangeStatus u' pk d) s' = (HTTP_404_NOT_FOUND, s').
Proof.
  pose proof (serve_outcome (DeleteTask u pk) s) as O.
  destruct (serve (DeleteTask u pk) s) as [resp s'] eqn:E; simpl in Hd |- *; subst resp.
  assert (Hf : find_task pk s' = None).
  { inversion O as [resp Hq| | |pk' Hf]; subst; [discriminate Hq|].
    unfold find_task; simpl; apply find_filter_out. }
  unfold TaskDetail_get, TaskEventLogList_get, bind, get_object; rewrite Hf.
  split; [reflexivity|]; split; [reflexivity|].
  intros u' p v d; unfold serve; simpl.
  unfold TaskDetail_put, TaskDetail_delete, TaskAssign_post, TaskChangeStatus_post,
    bind, get_object; rewrite Hf; repeat split.
Qed.

(** The [UserReports] class of [tasks/views.py] (by username) answers 404
    for an unknown username; for a known one its three counts are the
    created, completed and incompleted counts of the routed report of
    [users/views.py] for that user: the prefilter on reporter or assignee
    changes no count. *)
Theorem UserReports_by_username_agrees (s : store) (uname : string) :
  match find (fun u => String.eqb (username u) uname) (users s) with
  | None => UserReports_by_username_get uname s = (Raise Http404, s)
  | Some usr =>
      exists r,
        fst (serve (Report (user_pk usr)) s) = HTTP_200_REPORT r /\
        UserReports_by_username_get uname s =
          (Ok (mkReport3 (created r) (completed r) (incompleted r)), s)
  end.
Proof.
  unfold UserReports_by_username_get, bind, get_user_by_username, read, ret.
  destruct (find _ (users s)) as [usr|]; [|reflexivity].
  eexists; split; [reflexivity|]; simpl.
  set (rep := fun t => reporter t =? user_pk usr).
  set (asg := fun t => opt_Z_eqb (assignee t) (Some (user_pk usr))).
  set (either := fun t => ((reporter t =? user_pk usr) ||
                             opt_Z_eqb (assignee t) (Some (user_pk usr)))%bool).
  assert (E1 : filter rep (filter either (tasks s)) = filter rep (tasks s)).
  { rewrite filter_filter_and; apply filter_ext; intros t; unfold either, rep.
    destruct (reporter t =? user_pk usr), (opt_Z_eqb _ _); reflexivity. }
  assert (E2 : filter asg (filter either (tasks s)) = filter asg (tasks s)).
  { rewrite filter_filter_and; apply filter_ext; intros t; unfold either, asg.
    destruct (reporter t =? user_pk usr), (opt_Z_eqb _ _); reflexivity. }
  rewrite E1, E2; reflexivity.
Qed.

(** [TaskListCreate.post] without [name] and [category] answers 400
    naming both fields, and writes nothing. *)
Theorem create_missing_required (s : store) (u : Z) (p : payload)
  (Hn : p_name p = None) (Hc : p_category p = None) :
  exists errs,
    TaskListCreate_post u p s = (Ok (HTTP_400_BAD_REQUEST ("name"%string :: errs)), s) /\
    In "category"%string errs.
Proof.
  unfold TaskListCreate_post, bind, read, ret, TaskSerializer_is_valid; rewrite Hn, Hc.
  simpl; eexists; split; [reflexivity|].
  apply in_or_app; right; left; reflexivity.
Qed.


(** A created task takes the next key, its name is the stripped name of
    the payload, its description the stripped description (empty when
    absent), its category the payload's, its priority the payload's
    (MEDIUM when absent); the next key moves by one and the CREATED entry
    is appended to the log. *)
Theorem create_fields_from_payload (s s' : store) (u : Z) (p : payload) (t : Task)
  (Hc : TaskListCreate_post u p s = (Ok (HTTP_201_CREATED t), s')) :
  task_pk t = next_pk s /\ next_pk s' = next_pk s + 1 /\
  (exists n, p_name p = Some n /\ name t = Py.strip n) /\
  description t = match p_description p with Some d => Py.strip d | None => [] end /\
  p_category p = Some (category t) /\
  priority t = match p_priority p with Some q => q | None => PRIORITY_MEDIUM end /\
  logs s' = logs s ++ [created_entry t].
Proof.
  revert Hc; unfold TaskListCreate_post, bind, read, insert_task, log_save, modify, ret.
  simpl; destruct (TaskSerializer_is_valid false p s) as [e|vd] eqn:Hv; [discriminate|].
  intros H; inversion H; subst; clear H; simpl.
  pose proof (TaskSerializer_is_valid_present _ _ _ _ Hv) as (Pd & Pq).
  apply TaskSerializer_is_valid_ok in Hv as (Hn & Hd & Hcat & Hq & Hd0 & Hq0 & Hreq).
  destruct (Hreq eq_refl) as [Nn Nc]; clear Hreq.
  split; [reflexivity|]; split; [reflexivity|].
  split.
  { destruct (vd_name vd) as [n|]; [|contradiction].
    destruct (Hn n eq_refl) as (v & Ev & -> & _); exists v; auto. }
  split.
  { destruct (vd_description vd) as [x|].
    - destruct (Hd x eq_refl) as (v & Ev & -> & _); rewrite Ev; reflexivity.
    - destruct (p_description p); [exfalso; apply Pd; [discriminate | reflexivity] | reflexivity]. }
  split.
  { destruct (vd_category vd) as [c|]; [|contradiction].
    exact (proj1 (Hcat c eq_refl)). }
  split; [|reflexivity].
  destruct (vd_priority vd) as [q|].
  - rewrite (proj1 (Hq q eq_refl)); reflexivity.
  - destruct (p_priority p); [exfalso; apply Pq; [discriminate | reflexivity] | reflexivity].
Qed.

(** [TaskAssign.post] with the key of an existing user who is not the
    current assignee: the task gets that user as assignee, and the
    ASSIGNED entry written says "Task assigned to <username>.". *)
Theorem assign_existing_user (s : store) (u pk z : Z) (t0 : Task) (usr : User)
  (Hf : find_task pk s = Some t0) (Hu : find_user z s = Some usr)
  (Hne : assignee t0 <> Some z) :
  exists s',
    TaskAssign_post u pk (Some (PyInt z)) s =
      (Ok (HTTP_200_OK (mkTask (task_pk t0) (name t0) (description t0) (category t0)
                          (priority t0) (status t0) (reporter t0) (Some z))), s') /\
    find_task pk s' =
      Some (mkTask (task_pk t0) (name t0) (description t0) (category t0)
              (priority t0) (status t0) (reporter t0) (Some z)) /\
    logs s' = logs s ++ [mkLog pk u EVENT_ASSIGNED
                           ("Task assigned to " ++ username usr ++ ".")%string].
Proof.
  pose proof (find_task_pk _ _ _ Hf) as Hpk.
  pose proof (find_task_existsb _ _ _ Hf) as Hex.
  assert (Hz : user_pk usr = z)
    by (unfold find_user in Hu; apply find_some in Hu as [_ H]; apply Z.eqb_eq; exact H).
  assert (Hr : resolve_user (Some (PyInt z)) s = (Ok (Some usr), s))
    by (unfold resolve_user, try_except_ValueError, get_object_or_404_User, bind, ret;
        simpl; unfold find_user in Hu; rewrite Hu; reflexivity).
  assert (Heq : opt_Z_eqb (assignee t0) (option_map user_pk (Some usr)) = false).
  { simpl; rewrite Hz; destruct (assignee t0) as [a|]; [|reflexivity].
    apply Z.eqb_neq; intros ->; apply Hne; reflexivity. }
  unfold TaskAssign_post, bind at 1, get_object; rewrite Hf.
  unfold bind at 1; rewrite Hr, Heq; simpl option_map; rewrite Hz.
  rewrite (save_then_log_store pk); [| exact Hpk | exact Hex].
  eexists; split; [reflexivity|]; split.
  - unfold find_task; simpl; apply find_replace; [exact Hpk | exact Hex].
  - simpl; rewrite Hpk; reflexivity.
Qed.

(** ** Witnesses: the theorems with hypotheses, applied at concrete data *)

Lemma C7_witness :
  (find_task 1 db_assigned = Some task1_assigned /\
   run [AssignTask 1 1 (Some (PyStr (Py.of_ascii "2")));
        AssignTask 1 1 (Some (PyStr (Py.of_ascii "2")))] db_assigned =
     ([HTTP_204_NO_CONTENT; HTTP_204_NO_CONTENT], db_assigned)) /\
  (find_task 1 db1 = Some task1 /\
   run [AssignTask 1 1 (Some (PyStr [])); AssignTask 1 1 (Some (PyStr []))] db1 =
     ([HTTP_204_NO_CONTENT; HTTP_204_NO_CONTENT], db1)).
Proof.
  split; split.
  - vm_compute; reflexivity.
  - apply (C7_assign_idempotent db_assigned 1 1 (Some (PyStr (Py.of_ascii "2")))
             task1_assigned
             (Some dummyuser)); vm_compute; reflexivity.
  - vm_compute; reflexivity.
  - apply (C7_assign_idempotent db1 1 1 (Some (PyStr [])) task1 None);
      vm_compute; reflexivity.
Defined.

Lemma C8_witness :
  reachable db_done /\
  report_of (fst (serve (Report 1) db_done)) = Some (mkReport 1 1 1 0) /\
  (completed (mkReport 1 1 1 0) + incompleted (mkReport 1 1 1 0) =
   assigned (mkReport 1 1 1 0))%nat.
Proof.
  assert (Hr : reachable db_done)
    by (unfold db_done, db1, db0; repeat apply reachable_step; apply reachable_init).
  split; [exact Hr|].
  split; [vm_compute; reflexivity|].
  apply (C8_report_partition db_done 1); [exact Hr | vm_compute; reflexivity].
Defined.

Lemma C9_witness :
  find_task 1 db1 = Some task1 /\
  TaskSerializer_is_valid true same_values_payload db1 = inr same_values_validated /\
  exists s',
    TaskDetail_put 1 1 same_values_payload db1 = (Ok (HTTP_200_OK task1), s') /\
    logs s' = logs db1 ++ [mkLog 1 1 EVENT_EDITED "Task edited."].
Proof.
  split; [vm_compute; reflexivity|]; split; [vm_compute; reflexivity|].
  destruct (C9_update_always_logs db1 1 1 same_values_payload task1 same_values_validated)
    as (s' & H1 & H2); [vm_compute; reflexivity | vm_compute; reflexivity |].
  exists s'; split; [exact H1 | exact H2].
Defined.

Lemma C10_witness :
  find_task 1 db1 = Some task1 /\
  exists s' d,
    TaskChangeStatus_post 1 1 None db1 = (Ok (HTTP_200_OK task1), s') /\
    find_task 1 s' = Some task1 /\
    logs s' = logs db1 ++ [mkLog 1 1 EVENT_STATUS_CHANGED d].
Proof.
  split; [vm_compute; reflexivity|].
  apply (C10_change_status_absent_logs db1 1 1 task1); vm_compute; reflexivity.
Defined.

Lemma db_done_reachable : reachable db_done.
Proof. unfold db_done, db1, db0; repeat apply reachable_step; apply reachable_init. Qed.

Lemma serve_quiet_no_write_witness :
  quiet (fst (serve (ChangeStatus 1 1 (Some 7)) db1)) = true /\
  snd (serve (ChangeStatus 1 1 (Some 7)) db1) = db1.
Proof.
  assert (Hq : quiet (fst (serve (ChangeStatus 1 1 (Some 7)) db1)) = true)
    by (vm_compute; reflexivity).
  split; [exact Hq | exact (serve_quiet_no_write _ _ Hq)].
Defined.

Lemma reachable_keys_witness :
  reachable db_two /\ map task_pk (tasks db_two) = [1; 2] /\ next_pk db_two = 3 /\
  NoDup (map task_pk (tasks db_two)) /\
  Forall (fun t => task_pk t < next_pk db_two) (tasks db_two).
Proof.
  assert (Hr : reachable db_two)
    by (unfold db_two, db1, db0; repeat apply reachable_step; apply reachable_init).
  split; [exact Hr|]; split; [vm_compute; reflexivity|]; split; [vm_compute; reflexivity|].
  exact (reachable_keys db_two Hr).
Defined.

Lemma reachable_no_orphan_logs_witness :
  reachable db_done /\ (List.length (logs db_done) = 3)%nat /\
  forall l, In l (logs db_done) -> find_task (log_task l) db_done <> None.
Proof.
  split; [exact db_done_reachable|]; split; [vm_compute; reflexivity|].
  exact (reachable_no_orphan_logs db_done db_done_reachable).
Defined.

Lemma reachable_fields_ok_witness :
  reachable db_done /\ In task1_done (tasks db_done) /\
  Py.strip (name task1_done) = name task1_done /\
  (exists c, In c (name task1_done) /\ Py.is_space c = false) /\
  (1 <= List.length (name task1_done) <= 300)%nat /\
  ~ In 0 (name task1_done) /\ Forall (fun c => is_surrogate c = false) (name task1_done) /\
  (List.length (description task1_done) <= 2000)%nat /\
  In (category task1_done) (categories db_done) /\
  In (priority task1_done) PRIORITY_CHOICES /\ In (status task1_done) STATUS_CHOICES.
Proof.
  assert (Hin : In task1_done (tasks db_done)) by (vm_compute; left; reflexivity).
  split; [exact db_done_reachable|]; split; [exact Hin|].
  exact (reachable_fields_ok db_done task1_done db_done_reachable Hin).
Defined.

Lemma TaskEventLogList_get_created_first_witness :
  reachable db_done /\ find_task 1 db_done = Some task1_done /\
  exists rest,
    TaskEventLogList_get 1 db_done = (Ok (created_entry task1_done :: rest), db_done) /\
    log_event (created_entry task1_done) = EVENT_CREATED /\
    log_user (created_entry task1_done) = reporter task1_done /\
    Forall (fun l => log_task l = 1 /\ log_event l <> EVENT_CREATED) rest.
Proof.
  assert (Hf : find_task 1 db_done = Some task1_done) by (vm_compute; reflexivity).
  split; [exact db_done_reachable|]; split; [exact Hf|].
  pose proof (TaskEventLogList_get_created_first db_done 1 db_done_reachable) as H.
  rewrite Hf in H; exact H.
Defined.

Lemma create_then_read_witness :
  serve (CreateTask 1 create_payload) db0 = (HTTP_201_CREATED task1, db1) /\
  TaskDetail_get 1 db1 = (Ok task1, db1) /\
  TaskEventLogList_get 1 db1 = (Ok [created_entry task1], db1).
Proof.
  assert (Hc : serve (CreateTask 1 create_payload) db0 = (HTTP_201_CREATED task1, db1))
    by (vm_compute; reflexivity).
  split; [exact Hc|].
  exact (create_then_read db0 db1 1 create_payload task1 (reachable_init _ _) Hc).
Defined.

Lemma write_then_read_witness :
  let t' := mkTask 1 (Py.of_ascii "Test Task 1") (Py.of_ascii "Do this task first") 10
              PRIORITY_MEDIUM STATUS_IN_PROGRESS 1 None in
  fst (serve (ChangeStatus 1 1 (Some STATUS_IN_PROGRESS)) db1) = HTTP_200_OK t' /\
  TaskDetail_get 1 (snd (serve (ChangeStatus 1 1 (Some STATUS_IN_PROGRESS)) db1)) =
    (Ok t', snd (serve (ChangeStatus 1 1 (Some STATUS_IN_PROGRESS)) db1)).
Proof.
  intros t'.
  assert (H : fst (serve (ChangeStatus 1 1 (Some STATUS_IN_PROGRESS)) db1) = HTTP_200_OK t')
    by (vm_compute; reflexivity).
  split; [exact H|].
  exact (proj1 (write_then_read _ _ t' H)).
Defined.

Lemma delete_then_404_witness :
  fst (serve (DeleteTask 1 1) db1) = HTTP_200_DELETED 1 /\
  TaskDetail_get 1 (snd (serve (DeleteTask 1 1) db1)) =
    (Raise Http404, snd (serve (DeleteTask 1 1) db1)) /\
  serve (ChangeStatus 2 1 (Some STATUS_DONE)) (snd (serve (DeleteTask 1 1) db1)) =
    (HTTP_404_NOT_FOUND, snd (serve (DeleteTask 1 1) db1)).
Proof.
  assert (H : fst (serve (DeleteTask 1 1) db1) = HTTP_200_DELETED 1)
    by (vm_compute; reflexivity).
  destruct (delete_then_404 db1 1 1 H) as (H1 & _ & H3).
  split; [exact H|]; split; [exact H1|].
  exact (proj2 (proj2 (proj2 (H3 2 empty_payload None (Some STATUS_DONE))))).
Defined.

Lemma create_missing_required_witness :
  p_name empty_payload = None /\ p_category empty_payload = None /\
  exists errs,
    TaskListCreate_post 1 empty_payload db0 =
      (Ok (HTTP_400_BAD_REQUEST ("name"%string :: errs)), db0) /\
    In "category"%string errs.
Proof.
  split; [reflexivity|]; split; [reflexivity|].
  apply create_missing_required; reflexivity.
Defined.


Lemma create_fields_from_payload_witness :
  TaskListCreate_post 1 padded_payload db0 = (Ok (HTTP_201_CREATED task1), db1) /\
  task_pk task1 = next_pk db0 /\ next_pk db1 = next_pk db0 + 1 /\
  (exists n, p_name padded_payload = Some n /\ name task1 = Py.strip n) /\
  logs db1 = logs db0 ++ [created_entry task1].
Proof.
  assert (Hc : TaskListCreate_post 1 padded_payload db0 = (Ok (HTTP_201_CREATED task1), db1))
    by (vm_compute; reflexivity).
  destruct (create_fields_from_payload db0 db1 1 padded_payload task1 Hc)
    as (H1 & H2 & H3 & _ & _ & _ & H7).
  split; [exact Hc|]; split; [exact H1|]; split; [exact H2|]; split; [exact H3 | exact H7].
Defined.

Lemma assign_existing_user_witness :
  find_task 1 db1 = Some task1 /\ find_user 2 db1 = Some dummyuser /\
  exists s',
    TaskAssign_post 1 1 (Some (PyInt 2)) db1 = (Ok (HTTP_200_OK task1_assigned), s') /\
    logs s' = logs db1 ++ [mkLog 1 1 EVENT_ASSIGNED "Task assigned to dummyuser."].
Proof.
  assert (Hf : find_task 1 db1 = Some task1) by (vm_compute; reflexivity).
  assert (Hu : find_user 2 db1 = Some dummyuser) by (vm_compute; reflexivity).
  split; [exact Hf|]; split; [exact Hu|].
  destruct (assign_existing_user db1 1 1 2 task1 dummyuser Hf Hu) as (s' & H1 & _ & H3);
    [discriminate|].
  exists s'; split; [exact H1 | exact H3].
Defined.
